(** * Mental-health assistant: a shallow embedding of [app/app.py]

    The development follows the layout of the Python module: text helpers
    ([sanitize_input], [validate_password]), the sliding-window limiter
    ([rate_limit_check]), the session loader ([user_loader]) and the two
    views whose control flow matters for the properties below ([login] and
    [ask]).

    Python values are modelled as follows.
    - [str] is a sequence of Unicode code points ([list N]); [len] is
      [length]; the literals of the module are ASCII and are written with
      [lit].
    - An exception is a value of [Exn] carrying the class name and the text
      [str(e)] gives; only subclasses of [Exception] are modelled, so an
      [except Exception] clause catches every [Exn].
    - The module-level collaborators ([mongo], [genai], [logger], the clock,
      the hasher) are the fields of [Env] and the mutable things they own
      (collections, log, flashed messages, session) are the fields of
      [World].  A view is a function [World -> (Exn + A) * World]: effects
      made before an exception is raised stay in the world, as in Python.
    - A [datetime] is a count of microseconds.  The definitions of this
      first part take it exact and unbounded; the module [Dates] further
      down gives the range of a Python [datetime] and the millisecond
      precision of the store, and the check as it runs over them.
    - [render_template] and [redirect] are the values the view returns;
      what the templating layer makes of them is not part of the module.
    - A form is given with the answer of [validate_on_submit()] and the
      [data] of its fields; [request.args.get('next')] is an argument of
      [login], and [current_user] an argument of [ask]. *)

From Stdlib Require Import List ZArith NArith Bool Lia String Ascii.
From Stdlib Require Import Permutation DecimalString.
Import ListNotations.

Set Implicit Arguments.
Local Open Scope Z_scope.

(* ===================================================================== *)
(** ** Text *)
(* ===================================================================== *)

Module Text.

Definition char := N.
Definition str := list char.

(** An ASCII literal of the source as a [str]. *)
Definition lit (s : string) : str :=
  List.map N_of_ascii (list_ascii_of_string s).

(** [len(s)] *)
Definition len (s : str) : Z := Z.of_nat (List.length s).

Definition char_eqb (a b : char) : bool := N.eqb a b.

Fixpoint str_eqb (a b : str) : bool :=
  match a, b with
  | [], [] => true
  | x :: a', y :: b' => char_eqb x y && str_eqb a' b'
  | _, _ => false
  end.

Local Open Scope N_scope.

Definition in_range (lo hi c : char) : bool :=
  (N.leb lo c && N.leb c hi)%bool.

(** [str.isspace] for one code point, as CPython decides it: the ASCII
    table (tab to carriage return, the four separators 0x1C-0x1F, space)
    and the Unicode white-space code points. *)
Definition isspace (c : char) : bool :=
  (in_range 0x09 0x0D c || in_range 0x1C 0x1F c || N.eqb c 0x20
   || N.eqb c 0x85 || N.eqb c 0xA0 || N.eqb c 0x1680
   || in_range 0x2000 0x200A c || N.eqb c 0x2028 || N.eqb c 0x2029
   || N.eqb c 0x202F || N.eqb c 0x205F || N.eqb c 0x3000)%bool.

Fixpoint dropwhile (p : char -> bool) (s : str) : str :=
  match s with
  | [] => []
  | c :: s' => if p c then dropwhile p s' else s
  end.

Definition lstrip (s : str) : str := dropwhile isspace s.
Definition rstrip (s : str) : str := rev (dropwhile isspace (rev s)).

(** [s.strip()] *)
Definition strip (s : str) : str := rstrip (lstrip s).

(** [sep.join(parts)] *)
Fixpoint join (sep : str) (parts : list str) : str :=
  match parts with
  | [] => []
  | [p] => p
  | p :: rest => p ++ sep ++ join sep rest
  end.

(** [str(n)] for an [int]. *)
Definition str_of_int (n : Z) : str :=
  lit (NilZero.string_of_int (Z.to_int n)).

(** The character class [[A-Za-z]]. *)
Definition is_ascii_letter (c : char) : bool :=
  (in_range 65 90 c || in_range 97 122 c)%bool.

(** The character class [[0-9]]. *)
Definition is_ascii_digit (c : char) : bool := in_range 48 57 c.

(** The character class of [sanitize_input]: less-than (60), greater-than
    (62), double quote (34) and single quote (39). *)
Definition LT : char := 60.
Definition GT : char := 62.
Definition DQUOTE : char := 34.
Definition SQUOTE : char := 39.

Definition is_dangerous (c : char) : bool :=
  (N.eqb c LT || N.eqb c GT || N.eqb c DQUOTE || N.eqb c SQUOTE)%bool.

(** [re.search(cls, s)] for a one-character class: is there a match? *)
Definition re_search (cls : char -> bool) (s : str) : bool := existsb cls s.

(** [re.sub(cls, '', s)] for a one-character class: every match removed. *)
Definition re_sub_empty (cls : char -> bool) (s : str) : str :=
  filter (fun c => negb (cls c)) s.

End Text.
Import Text.

(* ===================================================================== *)
(** ** Helpers of the module (lines 113-139) *)
(* ===================================================================== *)

Definition MSG_TOO_SHORT : str := lit "Password must be at least 8 characters long".
Definition MSG_NO_LETTER : str := lit "Password must contain at least one letter".
Definition MSG_NO_NUMBER : str := lit "Password must contain at least one number".
Definition MSG_VALID : str := lit "Password is valid".

Definition validate_password (password : str) : bool * str :=
  if len password <? 8 then (false, MSG_TOO_SHORT)
  else if negb (re_search is_ascii_letter password) then (false, MSG_NO_LETTER)
  else if negb (re_search is_ascii_digit password) then (false, MSG_NO_NUMBER)
  else (true, MSG_VALID).

(** [not text] for an optional string: [None] and [""] are falsy. *)
Definition falsy (text : option str) : bool :=
  match text with
  | None => true
  | Some [] => true
  | Some (_ :: _) => false
  end.

Definition sanitize_input (text : option str) : str :=
  if falsy text then []
  else match text with
       | Some t => strip (re_sub_empty is_dangerous t)
       | None => []
       end.

(* ===================================================================== *)
(** ** Exceptions, documents and the world *)
(* ===================================================================== *)

(** [type(e).__name__] and [str(e)]. *)
Record Exn := mkExn { exn_type : str; exn_str : str }.

Definition ValueError (msg : str) : Exn := mkExn (lit "ValueError") msg.
Definition KeyError (key : string) : Exn :=
  mkExn (lit "KeyError") ([SQUOTE] ++ lit key ++ [SQUOTE]).
Definition AttributeError (msg : str) : Exn := mkExn (lit "AttributeError") msg.

Inductive LogLevel := INFO | WARNING | ERROR.

(** [class User(UserMixin)] *)
Record User := mkUser { id : str; username : str }.

(** A document of [mongo.db.users].  A key of the dictionary may be absent
    from a stored document, hence the options. *)
Record UserDoc := mkUserDoc {
  u_id : str;
  u_username : option str;
  u_password : option str;
  u_is_active : option bool;
  u_last_login : option Z
}.

(** The keys of a [user_data] document the [ask] view reads with [.get],
    with values of the types the module itself writes: a number for the
    age, lists of strings for goals and stress levels, a dictionary of
    booleans for the preferences.  A stored document holding values of
    other types (goals that are numbers, say) has no counterpart here. *)
Record Preferences := mkPreferences {
  therapy : option bool;
  meditation : option bool
}.

Record Profile := mkProfile {
  age : option Z;
  goals : option (list str);
  stress_level : option (list str);
  preferences : option Preferences
}.

Record ProfileDoc := mkProfileDoc { p_user_id : str; p_profile : Profile }.

(** The empty dictionary [{}]. *)
Definition EMPTY_DICT : Profile := mkProfile None None None None.

(** A document of [mongo.db.qa_history]; [q_timestamp] is a [datetime],
    counted in microseconds. *)
Record QARecord := mkQARecord {
  q_user_id : str;
  q_username : str;
  q_question : str;
  q_answer : str;
  q_timestamp : Z
}.

Inductive GenaiCall :=
| Construct (model : str)
| Generate (model prompt : str).

Record World := mkWorld {
  users : list UserDoc;
  user_data : list ProfileDoc;
  qa_history : list QARecord;
  log : list (LogLevel * str);
  flashes : list (str * str);
  genai_trace : list GenaiCall;
  session_user : option str;
  clock_reads : nat
}.

Definition set_users (f : list UserDoc -> list UserDoc) (w : World) : World :=
  mkWorld (f (users w)) (user_data w) (qa_history w) (log w) (flashes w)
          (genai_trace w) (session_user w) (clock_reads w).
Definition set_qa_history (f : list QARecord -> list QARecord) (w : World) : World :=
  mkWorld (users w) (user_data w) (f (qa_history w)) (log w) (flashes w)
          (genai_trace w) (session_user w) (clock_reads w).
Definition set_log (f : list (LogLevel * str) -> list (LogLevel * str)) (w : World) : World :=
  mkWorld (users w) (user_data w) (qa_history w) (f (log w)) (flashes w)
          (genai_trace w) (session_user w) (clock_reads w).
Definition set_flashes (f : list (str * str) -> list (str * str)) (w : World) : World :=
  mkWorld (users w) (user_data w) (qa_history w) (log w) (f (flashes w))
          (genai_trace w) (session_user w) (clock_reads w).
Definition set_genai_trace (f : list GenaiCall -> list GenaiCall) (w : World) : World :=
  mkWorld (users w) (user_data w) (qa_history w) (log w) (flashes w)
          (f (genai_trace w)) (session_user w) (clock_reads w).
Definition set_session_user (u : option str) (w : World) : World :=
  mkWorld (users w) (user_data w) (qa_history w) (log w) (flashes w)
          (genai_trace w) u (clock_reads w).
Definition set_clock_reads (n : nat) (w : World) : World :=
  mkWorld (users w) (user_data w) (qa_history w) (log w) (flashes w)
          (genai_trace w) (session_user w) n.

(** *** The collaborators *)

Inductive Collection := Users | UserData | QaHistory.
Inductive Method := FindOne | InsertOne | UpdateOne | CountDocuments.

(** What [resp.text] does on the object [generate_content] returned:
    it has a value, or the attribute is absent (which is also how a
    property raising a subclass of [AttributeError] is represented:
    [getattr] answers both with its default), or the property raises. *)
Inductive Response_text :=
| text_is (t : option str)
| text_absent
| text_raises (e : Exn).

Record Env := mkEnv {
  (** [os.getenv] *)
  getenv : string -> option str;
  (** the value of the n-th call of [datetime.utcnow()], in microseconds *)
  utcnow_at : nat -> Z;
  (** the driver raising instead of answering *)
  mongo_fault : Collection -> Method -> option Exn;
  (** [bson.ObjectId(s)]: the identifier, or [InvalidId] and the like *)
  ObjectId : str -> Exn + str;
  (** [werkzeug.security.check_password_hash] *)
  check_password_hash : str -> option str -> Exn + bool;
  (** [str.lower] *)
  lower : str -> str;
  (** [genai.GenerativeModel(name)] raising *)
  GenerativeModel_fault : str -> option Exn;
  (** [model.generate_content(prompt)], by model name *)
  generate_content_result : str -> str -> Exn + Response_text
}.

(** *** Computations *)

Definition M (A : Type) : Type := World -> (Exn + A) * World.

Definition ret {A} (a : A) : M A := fun w => (inr a, w).
Definition raise {A} (e : Exn) : M A := fun w => (inl e, w).
Definition bind {A B} (m : M A) (k : A -> M B) : M B :=
  fun w => match m w with
           | (inl e, w') => (inl e, w')
           | (inr a, w') => k a w'
           end.

(** [try: body  except Exception as e: handler e] *)
Definition try_except {A} (body : M A) (handler : Exn -> M A) : M A :=
  fun w => match body w with
           | (inl e, w') => handler e w'
           | (inr a, w') => (inr a, w')
           end.

Definition lift {A} (r : Exn + A) : M A :=
  match r with inl e => raise e | inr a => ret a end.

Declare Scope py_scope.
Delimit Scope py_scope with py.
Notation "x <- m ;; k" := (bind m (fun x => k))
  (at level 61, m at next level, right associativity) : py_scope.
Notation "m ;; k" := (bind m (fun _ => k))
  (at level 61, right associativity) : py_scope.
Local Open Scope py_scope.

Definition logger_error (msg : str) : M unit :=
  fun w => (inr tt, set_log (fun l => l ++ [(ERROR, msg)]) w).

Definition flash (message category : str) : M unit :=
  fun w => (inr tt, set_flashes (fun l => l ++ [(message, category)]) w).

Definition utcnow (env : Env) : M Z :=
  fun w => (inr (utcnow_at env (clock_reads w)),
            set_clock_reads (S (clock_reads w)) w).

(** [timedelta(seconds=s)] in microseconds. *)
Definition timedelta_seconds (s : Z) : Z := s * 1000000.

(** *** The store *)

Definition mongo_call {A} (env : Env) (c : Collection) (m : Method)
    (answer : M A) : M A :=
  match mongo_fault env c m with
  | Some e => raise e
  | None => answer
  end.

(** [{"_id": oid}] *)
Definition match_id (oid : str) (d : UserDoc) : bool := str_eqb (u_id d) oid.

(** [{'username': username, 'is_active': True}] *)
Definition match_login (name : str) (d : UserDoc) : bool :=
  match u_username d, u_is_active d with
  | Some n, Some true => str_eqb n name
  | _, _ => false
  end.

(** [{'user_id': user_id, 'timestamp': {'$gte': window_start}}], the
    stamps compared as exact integers ([Dates.match_window] compares them
    at the precision of the store). *)
Definition match_window (user_id : str) (window_start : Z) (r : QARecord) : bool :=
  str_eqb (q_user_id r) user_id && (window_start <=? q_timestamp r).

Definition users_find_one (env : Env) (q : UserDoc -> bool) : M (option UserDoc) :=
  mongo_call env Users FindOne (fun w => (inr (find q (users w)), w)).

Fixpoint update_first (q : UserDoc -> bool) (f : UserDoc -> UserDoc)
    (l : list UserDoc) : list UserDoc :=
  match l with
  | [] => []
  | d :: l' => if q d then f d :: l' else d :: update_first q f l'
  end.

Definition set_last_login (t : Z) (d : UserDoc) : UserDoc :=
  mkUserDoc (u_id d) (u_username d) (u_password d) (u_is_active d) (Some t).

Definition users_update_one (env : Env) (q : UserDoc -> bool)
    (f : UserDoc -> UserDoc) : M unit :=
  mongo_call env Users UpdateOne
    (fun w => (inr tt, set_users (update_first q f) w)).

Definition user_data_find_one (env : Env) (user_id : str) : M (option ProfileDoc) :=
  mongo_call env UserData FindOne
    (fun w => (inr (find (fun p => str_eqb (p_user_id p) user_id) (user_data w)), w)).

Definition qa_history_count_documents (env : Env) (q : QARecord -> bool) : M Z :=
  mongo_call env QaHistory CountDocuments
    (fun w => (inr (Z.of_nat (List.length (filter q (qa_history w)))), w)).

(** [mongo.db.qa_history.insert_one(doc)]; the stamp is kept as given
    (the store itself keeps it to the millisecond, see [Dates]). *)
Definition qa_history_insert_one (env : Env) (r : QARecord) : M unit :=
  mongo_call env QaHistory InsertOne
    (fun w => (inr tt, set_qa_history (fun l => l ++ [r]) w)).

(* ===================================================================== *)
(** ** Configuration (lines 55-56) *)
(* ===================================================================== *)

(** [a or b] on optional strings. *)
Definition or_else (a b : option str) : option str :=
  if falsy a then b else a.

Definition GEMINI_API_KEY (env : Env) : option str :=
  or_else (getenv env "GEMINI_API_KEY") (getenv env "GOOGLE_API_KEY").

Definition GEMINI_MODEL (env : Env) : str :=
  match getenv env "GEMINI_MODEL" with
  | Some m => m
  | None => lit "gemini-1.5-flash"
  end.

(* ===================================================================== *)
(** ** The rate limiter (lines 122-134) *)
(* ===================================================================== *)

(** The check over exact, unbounded dates: [now - window] always exists and
    a stamp is compared as it is.  [Dates.rate_limit_check] is the same
    function over the dates of Python and of the store. *)

Definition rate_limit_check (env : Env) (user_id : str) (limit window : Z) : M bool :=
  try_except
    (now <- utcnow env ;;
     let window_start := now - timedelta_seconds window in
     count <- qa_history_count_documents env (match_window user_id window_start) ;;
     ret (count <? limit))
    (fun e =>
       logger_error (lit "Rate limit check error: " ++ exn_str e) ;;
       ret true).

(* ===================================================================== *)
(** ** The session loader (lines 100-108) *)
(* ===================================================================== *)

(** [user["username"]] *)
Definition getitem_username (d : UserDoc) : M str :=
  match u_username d with
  | Some n => ret n
  | None => raise (KeyError "username")
  end.

(** [user['password']] *)
Definition getitem_password (d : UserDoc) : M str :=
  match u_password d with
  | Some h => ret h
  | None => raise (KeyError "password")
  end.

(** The body of the [try] either returns a [User] ([Some]) or falls through
    to the [return None] that ends the function ([None]). *)
Definition user_loader (env : Env) (user_id : str) : M (option User) :=
  returned <-
    try_except
      (oid <- lift (ObjectId env user_id) ;;
       user <- users_find_one env (match_id oid) ;;
       match user with
       | Some d =>
           name <- getitem_username d ;;
           ret (Some (mkUser (u_id d) name))
       | None => ret None
       end)
      (fun e =>
         logger_error (lit "Error loading user: " ++ exn_str e) ;;
         ret None) ;;
  match returned with
  | Some u => ret (Some u)
  | None => ret None
  end.

(* ===================================================================== *)
(** ** Views *)
(* ===================================================================== *)

(** A form after [validate_on_submit()]: what the framework answered and the
    [data] of each field. *)
Record LoginForm := mkLoginForm {
  lf_validate_on_submit : bool;
  lf_username : option str;
  lf_password : option str
}.

Record QuestionForm := mkQuestionForm {
  qf_validate_on_submit : bool;
  qf_question : option str
}.

Inductive Context :=
| ctx_login (form : LoginForm)
| ctx_question (form : QuestionForm)
| ctx_answer (question answer : str).

Inductive Location :=
| url (target : str)
| url_for (endpoint : string).

(** What a view returns: [render_template(name, ...)] or [redirect(...)]. *)
Inductive Response :=
| render_template (name : string) (ctx : Context)
| redirect (to : Location).

(** *** login (lines 248-270) *)

Definition MSG_INVALID_LOGIN : str := lit "Invalid username or password.".
Definition MSG_LOGIN_ERROR : str :=
  lit "An error occurred during login. Please try again.".

Definition login_user (u : User) : M unit :=
  fun w => (inr tt, set_session_user (Some (id u)) w).

(** [form.username.data.lower()] *)
Definition data_lower (env : Env) (data : option str) : M str :=
  match data with
  | Some s => ret (lower env s)
  | None =>
      raise (AttributeError
               ([SQUOTE] ++ lit "NoneType" ++ [SQUOTE]
                ++ lit " object has no attribute "
                ++ [SQUOTE] ++ lit "lower" ++ [SQUOTE]))
  end.

Definition login (env : Env) (form : LoginForm) (next : option str) : M Response :=
  returned <-
    (if lf_validate_on_submit form then
       lowered <- data_lower env (lf_username form) ;;
       let username := sanitize_input (Some lowered) in
       let password := lf_password form in
       try_except
         (user <- users_find_one env (match_login username) ;;
          ok <- match user with
                | Some d =>
                    h <- getitem_password d ;;
                    lift (check_password_hash env h password)
                | None => ret false
                end ;;
          match user, ok with
          | Some d, true =>
              name <- getitem_username d ;;
              let user_obj := mkUser (u_id d) name in
              login_user user_obj ;;
              now <- utcnow env ;;
              users_update_one env (match_id (u_id d)) (set_last_login now) ;;
              ret (Some (if falsy next then redirect (url_for "dashboard")
                         else match next with
                              | Some n => redirect (url n)
                              | None => redirect (url_for "dashboard")
                              end))
          | _, _ =>
              flash MSG_INVALID_LOGIN (lit "error") ;;
              ret None
          end)
         (fun e =>
            logger_error (lit "Login error: " ++ exn_str e) ;;
            flash MSG_LOGIN_ERROR (lit "error") ;;
            ret None)
     else ret None) ;;
  match returned with
  | Some r => ret r
  | None => ret (render_template "login.html" (ctx_login form))
  end.

(** *** ask (lines 334-409)

    [ask] is the function under [@login_required]: it runs with an
    authenticated [current_user]. *)

Definition MSG_RATE_LIMITED : str :=
  lit "You have reached the hourly limit for questions. Please try again later.".
Definition MSG_NOT_CONFIGURED : str :=
  lit "AI is not configured (missing GOOGLE_API_KEY/GEMINI_API_KEY).".
Definition MSG_UNAVAILABLE : str :=
  lit "AI service is currently unavailable. Please try again shortly.".

Definition NL : char := 10%N.

(** Truthiness of [d.get(k)] for the values the view tests. *)
Definition truthy_int (v : option Z) : bool :=
  match v with Some n => negb (n =? 0) | None => false end.
Definition truthy_bool (v : option bool) : bool :=
  match v with Some b => b | None => false end.

(** [d.get(k) or []] *)
Definition get_or_empty (v : option (list str)) : list str :=
  match v with Some l => l | None => [] end.

(** Lines 353-367. *)
Definition user_context (user_data : Profile) : str :=
  let parts0 :=
    if truthy_int (age user_data)
    then match age user_data with
         | Some a => [lit "Age: " ++ str_of_int a ++ lit "."]
         | None => []
         end
    else [] in
  let goals := get_or_empty (goals user_data) in
  let parts1 :=
    match goals with
    | [] => parts0
    | _ :: _ => parts0 ++ [lit "Mental Health Goals: " ++ join (lit ", ") goals ++ lit "."]
    end in
  let stress := get_or_empty (stress_level user_data) in
  let parts2 :=
    match stress with
    | [] => parts1
    | _ :: _ => parts1 ++ [lit "Stress Level: " ++ join (lit ", ") stress ++ lit "."]
    end in
  let prefs :=
    match preferences user_data with
    | Some p => p
    | None => mkPreferences None None
    end in
  let parts3 :=
    if truthy_bool (therapy prefs)
    then parts2 ++ [lit "Attends therapy or counseling."] else parts2 in
  let parts :=
    if truthy_bool (meditation prefs)
    then parts3 ++ [lit "Practices meditation."] else parts3 in
  match parts with
  | [] => lit "No additional context available."
  | _ :: _ => join (lit " ") parts
  end.

(** Lines 369-377. *)
Definition build_prompt (user_context question : str) : str :=
  lit "You are a compassionate and professional mental health advisor. "
  ++ lit "Provide supportive, evidence-based guidance while being empathetic and non-judgmental. "
  ++ lit "Always recommend professional help for serious mental health concerns."
  ++ [NL; NL]
  ++ lit "User context: " ++ user_context ++ [NL; NL]
  ++ lit "Question: " ++ [DQUOTE] ++ question ++ [DQUOTE] ++ [NL; NL]
  ++ lit "Please provide a thoughtful, empathetic response with actionable advice. "
  ++ lit "Keep your response focused and helpful, around 150-200 words.".

(** [genai.GenerativeModel(name)]; the object is represented by its name. *)
Definition GenerativeModel (env : Env) (name : str) : M str :=
  fun w =>
    let w' := set_genai_trace (fun t => t ++ [Construct name]) w in
    match GenerativeModel_fault env name with
    | Some e => (inl e, w')
    | None => (inr name, w')
    end.

(** [model.generate_content(prompt)] *)
Definition generate_content (env : Env) (model prompt : str) : M Response_text :=
  fun w =>
    (generate_content_result env model prompt,
     set_genai_trace (fun t => t ++ [Generate model prompt]) w).

(** [getattr(resp, "text", "")]: the default stands in for an absent
    attribute, and for an [AttributeError] raised by the property (an
    exception of a subclass of it is given as [text_absent]). *)
Definition getattr_text (resp : Response_text) : Exn + option str :=
  match resp with
  | text_is t => inr t
  | text_absent => inr (Some [])
  | text_raises e =>
      if str_eqb (exn_type e) (lit "AttributeError") then inr (Some [])
      else inl e
  end.

(** [(v or "")] *)
Definition or_empty (v : option str) : str :=
  match v with Some s => s | None => [] end.

(** Lines 347-351: the profile of the user, or [{}] when there is none or
    the lookup raises. *)
Definition fetch_user_data (env : Env) (user_id : str) : M Profile :=
  try_except
    (found <- user_data_find_one env user_id ;;
     ret (match found with
          | Some d => p_profile d
          | None => EMPTY_DICT
          end))
    (fun e =>
       logger_error (lit "User data fetch error: " ++ exn_type e
                     ++ lit " - " ++ exn_str e) ;;
       ret EMPTY_DICT).

(** Lines 385-406: the call of the model and the saving of the exchange. *)
Definition ask_gemini (env : Env) (current_user : User) (form : QuestionForm)
    (question prompt : str) : M Response :=
  try_except
    (model <- GenerativeModel env (GEMINI_MODEL env) ;;
     resp <- generate_content env model prompt ;;
     text <- lift (getattr_text resp) ;;
     let ai_answer := strip (or_empty text) in
     if falsy (Some ai_answer) then
       raise (ValueError (lit "Empty response from Gemini"))
     else
       now <- utcnow env ;;
       qa_history_insert_one env
         (mkQARecord (id current_user) (username current_user)
                     question ai_answer now) ;;
       ret (render_template "response.html" (ctx_answer question ai_answer)))
    (fun e =>
       logger_error (lit "Gemini error: " ++ exn_type e
                     ++ lit " - " ++ exn_str e) ;;
       flash MSG_UNAVAILABLE (lit "error") ;;
       ret (render_template "ask.html" (ctx_question form))).

Definition ask (env : Env) (current_user : User) (form : QuestionForm) : M Response :=
  if qf_validate_on_submit form then
    allowed <- rate_limit_check env (id current_user) 10 3600 ;;
    if negb allowed then
      flash MSG_RATE_LIMITED (lit "warning") ;;
      ret (render_template "ask.html" (ctx_question form))
    else
      let question := sanitize_input (qf_question form) in
      user_data <- fetch_user_data env (id current_user) ;;
      let prompt := build_prompt (user_context user_data) question in
      if falsy (GEMINI_API_KEY env) then
        logger_error (lit "Gemini request error: Missing API key") ;;
        flash MSG_NOT_CONFIGURED (lit "error") ;;
        ret (render_template "ask.html" (ctx_question form))
      else
        ask_gemini env current_user form question prompt
  else
    ret (render_template "ask.html" (ctx_question form)).

(* ===================================================================== *)
(** ** Predicates used in the statements *)
(* ===================================================================== *)

(** A string that is empty or starts with a character outside [p]. *)
Definition starts_outside (p : char -> bool) (s : str) : Prop :=
  match s with
  | [] => True
  | c :: _ => p c = false
  end.

(** A string with no white space at either end. *)
Definition trimmed (s : str) : Prop :=
  starts_outside isspace s /\ starts_outside isspace (rev s).

Definition all_space (s : str) : Prop := Forall (fun c => isspace c = true) s.

(** The instant the next [datetime.utcnow()] returns in world [w]. *)
Definition next_utcnow (env : Env) (w : World) : Z :=
  utcnow_at env (clock_reads w).

(** A record of [user_id] stamped at or after [window_start]. *)
Definition in_window (user_id : str) (window_start : Z) (r : QARecord) : Prop :=
  q_user_id r = user_id /\ window_start <= q_timestamp r.

(** A record of somebody else, or one stamped before [window_start]. *)
Definition out_of_window (user_id : str) (window_start : Z) (r : QARecord) : Prop :=
  q_user_id r <> user_id \/ q_timestamp r < window_start.

(** The messages flashed between world [w] and the later world [w']. *)
Definition flashed (w w' : World) : list (str * str) :=
  skipn (List.length (flashes w)) (flashes w').

(** The three ways the credentials of a login can be refused, for the
    looked-up name [name] (lowered and sanitized) and the submitted
    password. *)
Inductive Refusal (env : Env) (w : World) (name : str) (password : option str) : Prop :=
| unknown_user :
    (forall d, In d (users w) -> u_username d <> Some name) ->
    Refusal env w name password
| inactive_account :
    (exists d, In d (users w) /\ u_username d = Some name) ->
    (forall d, In d (users w) -> u_username d = Some name ->
               u_is_active d <> Some true) ->
    Refusal env w name password
| wrong_password (d : UserDoc) (h : str) :
    find (match_login name) (users w) = Some d ->
    u_password d = Some h ->
    check_password_hash env h password = inr false ->
    Refusal env w name password.

(** A submitted login form, a store that answers the lookup, and
    credentials refused for one of the three reasons. *)
Definition refused_login (env : Env) (form : LoginForm) (w : World) : Prop :=
  lf_validate_on_submit form = true /\
  mongo_fault env Users FindOne = None /\
  exists raw, lf_username form = Some raw /\
    Refusal env w (sanitize_input (Some (lower env raw))) (lf_password form).

(** The profile [fetch_user_data] hands to the prompt in world [w]. *)
Definition fetched_profile (env : Env) (user_id : str) (w : World) : Profile :=
  match mongo_fault env UserData FindOne with
  | Some _ => EMPTY_DICT
  | None =>
      match find (fun p => str_eqb (p_user_id p) user_id) (user_data w) with
      | Some d => p_profile d
      | None => EMPTY_DICT
      end
  end.

(** The prompt [ask] sends for [form] in world [w]. *)
Definition asked_prompt (env : Env) (current_user : User) (form : QuestionForm)
    (w : World) : str :=
  build_prompt (user_context (fetched_profile env (id current_user) w))
               (sanitize_input (qf_question form)).


(** None of the four characters occurs in [s]. *)
Definition harmless (s : str) : Prop :=
  ~ In LT s /\ ~ In GT s /\ ~ In DQUOTE s /\ ~ In SQUOTE s.

(* ===================================================================== *)
(** ** Sample collaborators and worlds *)
(* ===================================================================== *)

Module Sample.

(** One second, in the unit of [datetime]. *)
Definition SECOND : Z := 1000000.

(** The first instant the sample clock returns; each later read is one
    second after the one before. *)
Definition T0 : Z := 1700000000 * SECOND.

Definition ascii_lower (s : str) : str :=
  List.map (fun c => if in_range 65%N 90%N c then (c + 32)%N else c) s.

(** A toy hasher: the digest of [p] is [p] after the prefix "h:". *)
Definition toy_hash (p : str) : str := lit "h:" ++ p.
Definition toy_check (h : str) (p : option str) : Exn + bool :=
  match p with
  | Some p' => inr (str_eqb h (toy_hash p'))
  | None => inl (mkExn (lit "TypeError") (lit "password must be a string"))
  end.

Definition no_fault : Collection -> Method -> option Exn := fun _ _ => None.

Definition UNAVAILABLE : Exn :=
  mkExn (lit "ServerSelectionTimeoutError") (lit "mongo:27017: timed out").


Definition users_down : Collection -> Method -> option Exn :=
  fun c m =>
    match c, m with
    | Users, FindOne => Some UNAVAILABLE
    | _, _ => None
    end.

Definition env_with (fault : Collection -> Method -> option Exn)
    (reply : Exn + Response_text) : Env :=
  mkEnv (fun k => if String.eqb k "GEMINI_API_KEY" then Some (lit "secret") else None)
        (fun n => T0 + Z.of_nat n * SECOND)
        fault
        (fun s => if Nat.eqb (List.length s) 24 then inr s
                  else inl (mkExn (lit "InvalidId") (lit "not a valid ObjectId")))
        toy_check
        ascii_lower
        (fun _ => None)
        (fun _ _ => reply).

Definition ADVICE : Exn + Response_text :=
  inr (text_is (Some (lit " Try breathing exercises. "))).

Definition env : Env := env_with no_fault ADVICE.



Definition ALICE_ID : str := lit "65a1b2c3d4e5f60718293a4b".
Definition BOB_ID : str := lit "65a1b2c3d4e5f60718293a4c".
Definition CAROL_ID : str := lit "65a1b2c3d4e5f60718293a4d".
Definition alice : User := mkUser ALICE_ID (lit "alice").

Definition asked (user_id name : str) (t : Z) : QARecord :=
  mkQARecord user_id name (lit "How do I cope with anxiety?")
             (lit "Try breathing exercises.") t.

(** Nine questions of alice in the last minutes and one exactly an hour
    before [T0]. *)
Definition recent : list QARecord :=
  List.map (fun k => asked ALICE_ID (lit "alice") (T0 - Z.of_nat k * 60 * SECOND))
           (seq 1 9)
  ++ [asked ALICE_ID (lit "alice") (T0 - 3600 * SECOND)].

(** A question of alice a microsecond too old, and a recent one of bob. *)
Definition elsewhere : list QARecord :=
  [asked ALICE_ID (lit "alice") (T0 - 3600 * SECOND - 1);
   asked BOB_ID (lit "bob") (T0 - SECOND)].

Definition directory : list UserDoc :=
  [mkUserDoc ALICE_ID (Some (lit "alice")) (Some (toy_hash (lit "Passw0rd")))
             (Some true) None;
   mkUserDoc BOB_ID (Some (lit "bob")) (Some (toy_hash (lit "hunter22")))
             (Some false) None;
   mkUserDoc CAROL_ID None (Some (toy_hash (lit "Passw0rd"))) (Some true) None].

Definition world_with (history : list QARecord) : World :=
  mkWorld directory [] history [] [] [] None 0.

(** A world where alice has used up her ten questions. *)
Definition busy : World := world_with (elsewhere ++ recent).

(** A world where alice has asked nothing yet. *)
Definition quiet : World := world_with [].

(** A question with markup, quotes and white space around it, and the record
    the view saves for it. *)
Definition markup_form : QuestionForm :=
  mkQuestionForm true (Some (lit "  How do I <b>cope</b> with 'anxiety'?  ")).

Definition saved : QARecord :=
  mkQARecord ALICE_ID (lit "alice") (lit "How do I bcope/b with anxiety?")
             (lit "Try breathing exercises.") (T0 + SECOND).

End Sample.

(* ===================================================================== *)
(** ** Further predicates *)
(* ===================================================================== *)

(** What [login] and [register] must never change in a stored user: the
    identifier, the name, the hash and the active flag. *)
Definition credentials (d : UserDoc) : str * option str * option str * option bool :=
  (u_id d, u_username d, u_password d, u_is_active d).

(** [s] is set and not the empty string. *)
Definition configured (s : option str) : Prop :=
  exists c rest, s = Some (c :: rest).

(* ===================================================================== *)
(** ** Dates as Python and the store keep them *)
(* ===================================================================== *)

Module Dates.

Definition OverflowError (msg : str) : Exn := mkExn (lit "OverflowError") msg.

(** [datetime.min] and [datetime.max], in microseconds from the epoch:
    years 1 to 9999. *)
Definition DATETIME_MIN : Z := -62135596800 * 1000000.
Definition DATETIME_MAX : Z := 253402300800 * 1000000 - 1.

(** The largest number of days a [timedelta] holds. *)
Definition MAX_DELTA_DAYS : Z := 999999999.

(** [timedelta(seconds=s)] for an integer [s], in microseconds; the days
    are [s // 86400] and more than [MAX_DELTA_DAYS] of them, either way,
    is an [OverflowError]. *)
Definition timedelta (s : Z) : Exn + Z :=
  let days := s / 86400 in
  if Z.abs days >? MAX_DELTA_DAYS then
    inl (OverflowError (lit "days=" ++ str_of_int days
                        ++ lit "; must have magnitude <= 999999999"))
  else inr (s * 1000000).

(** [t - d] for a [datetime] and a [timedelta]: a result outside the
    years 1 to 9999 is an [OverflowError]. *)
Definition datetime_sub (t d : Z) : Exn + Z :=
  if (t - d <? DATETIME_MIN) || (DATETIME_MAX <? t - d) then
    inl (OverflowError (lit "date value out of range"))
  else inr (t - d).

(** [now - timedelta(seconds=window)] (line 125). *)
Definition window_start_of (now window : Z) : Exn + Z :=
  match timedelta window with
  | inl e => inl e
  | inr d => datetime_sub now d
  end.

(** A [datetime] as BSON carries it: whole milliseconds, the microseconds
    below them dropped. *)
Definition bson_millis (t : Z) : Z := 1000 * (t / 1000).

(** [{'user_id': user_id, 'timestamp': {'$gte': window_start}}] as the
    store evaluates it: the bound of the filter goes through BSON. *)
Definition match_window (user_id : str) (window_start : Z) (r : QARecord) : bool :=
  str_eqb (q_user_id r) user_id && (bson_millis window_start <=? q_timestamp r).

(** Lines 122-134. *)
Definition rate_limit_check (env : Env) (user_id : str) (limit window : Z) : M bool :=
  try_except
    (now <- utcnow env ;;
     window_start <- lift (window_start_of now window) ;;
     count <- qa_history_count_documents env (match_window user_id window_start) ;;
     ret (count <? limit))
    (fun e =>
       logger_error (lit "Rate limit check error: " ++ exn_str e) ;;
       ret true).

End Dates.


(* ===================================================================== *)
(** ** The other views *)
(* ===================================================================== *)

(** Collaborators the views above do not use. *)
Record Driver := mkDriver {
  (** [werkzeug.security.generate_password_hash] *)
  generate_password_hash : str -> Exn + str;
  (** the [_id] the driver gives a document inserted into [users], as
      [str(result.inserted_id)] shows it *)
  new_object_id : list UserDoc -> str;
  (** [mongo.db.qa_history.find(...)] raising when the cursor is read *)
  find_fault : option Exn
}.

(** What a view with a form of type [F] returns. *)
Inductive Reply (F : Type) :=
| page (name : string) (form : F)
| moved (to : Location).
Arguments page {F} name form.
Arguments moved {F} to.

Definition set_user_data (f : list ProfileDoc -> list ProfileDoc) (w : World) : World :=
  mkWorld (users w) (f (user_data w)) (qa_history w) (log w) (flashes w)
          (genai_trace w) (session_user w) (clock_reads w).

(** *** register (lines 205-246)

    [register] is one request running alone: the lookup of line 217 and
    the inserts of lines 224 and 231 are separate calls of the store, and
    nothing here describes another request writing between them.

    The records [UserDoc] and [ProfileDoc] have a field for each key the
    module reads or updates.  The keys [created_at] (both collections),
    [updated_at] and [username] (in [user_data]) are written here and read
    nowhere: the clock is read for them, in the order of the source, and
    the values are not kept. *)

Record RegistrationForm := mkRegistrationForm {
  rf_validate_on_submit : bool;
  rf_username : option str;
  rf_password : option str
}.

Definition MSG_USERNAME_TAKEN : str :=
  lit "Username already exists. Please choose a different one.".
Definition MSG_REGISTERED : str := lit "Registration successful! Please log in.".
Definition MSG_REGISTER_ERROR : str :=
  lit "An error occurred during registration. Please try again.".

Definition TypeError (msg : str) : Exn := mkExn (lit "TypeError") msg.

(** [{'username': username}] *)
Definition match_username (name : str) (d : UserDoc) : bool :=
  match u_username d with
  | Some n => str_eqb n name
  | None => false
  end.

(** [mongo.db.users.insert_one(doc)]; the result is [str(inserted_id)]. *)
Definition users_insert_one (env : Env) (drv : Driver)
    (name hashed : str) : M str :=
  mongo_call env Users InsertOne
    (fun w =>
       let oid := new_object_id drv (users w) in
       (inr oid,
        set_users (fun l => l ++ [mkUserDoc oid (Some name) (Some hashed)
                                            (Some true) None]) w)).

(** The defaults of line 231-240. *)
Definition DEFAULT_PROFILE : Profile :=
  mkProfile None (Some []) (Some []) (Some (mkPreferences (Some false) (Some false))).

Definition user_data_insert_one (env : Env) (d : ProfileDoc) : M unit :=
  mongo_call env UserData InsertOne
    (fun w => (inr tt, set_user_data (fun l => l ++ [d]) w)).

(** [password = form.password.data] as the argument of [len]. *)
Definition data_for_len (data : option str) : M str :=
  match data with
  | Some s => ret s
  | None =>
      raise (TypeError (lit "object of type " ++ [SQUOTE] ++ lit "NoneType"
                        ++ [SQUOTE] ++ lit " has no len()"))
  end.

Definition register (env : Env) (drv : Driver) (form : RegistrationForm)
    : M (Reply RegistrationForm) :=
  returned <-
    (if rf_validate_on_submit form then
       lowered <- data_lower env (rf_username form) ;;
       let username := sanitize_input (Some lowered) in
       password <- data_for_len (rf_password form) ;;
       let (is_valid, message) := validate_password password in
       if negb is_valid then
         flash message (lit "error") ;;
         ret (Some (page "register.html" form))
       else
         existing_user <- users_find_one env (match_username username) ;;
         match existing_user with
         | Some _ =>
             flash MSG_USERNAME_TAKEN (lit "error") ;;
             ret (Some (page "register.html" form))
         | None =>
             try_except
               (hashed_password <- lift (generate_password_hash drv password) ;;
                _ <- utcnow env ;;
                inserted_id <- users_insert_one env drv username hashed_password ;;
                _ <- utcnow env ;;
                _ <- utcnow env ;;
                user_data_insert_one env (mkProfileDoc inserted_id DEFAULT_PROFILE) ;;
                flash MSG_REGISTERED (lit "success") ;;
                ret (Some (moved (url_for "login"))))
               (fun e =>
                  logger_error (lit "Registration error: " ++ exn_str e) ;;
                  flash MSG_REGISTER_ERROR (lit "error") ;;
                  ret None)
         end
     else ret None) ;;
  match returned with
  | Some r => ret r
  | None => ret (page "register.html" form)
  end.

(** *** profile (lines 296-329) *)

Record ProfileForm := mkProfileForm {
  pf_validate_on_submit : bool;
  pf_age : option Z;
  pf_mental_health_goals : option str;
  pf_stress_level : option (list str);
  pf_therapy_preference : bool;
  pf_meditation_preference : bool
}.

Definition MSG_PROFILE_UPDATED : str := lit "Profile updated successfully!".
Definition MSG_PROFILE_ERROR : str := lit "Error updating profile. Please try again.".

(** [s.split(sep)] for a one-character separator. *)
Fixpoint split_on (sep : char) (s : str) : list str :=
  match s with
  | [] => [[]]
  | c :: s' =>
      if char_eqb c sep then [] :: split_on sep s'
      else match split_on sep s' with
           | seg :: rest => (c :: seg) :: rest
           | [] => [[c]]
           end
  end.

(** Line 303: the lines of the field, each stripped, the empty ones
    dropped ([data or ...] treats an absent value as the empty string). *)
Definition goals_list (data : option str) : list str :=
  flat_map (fun g => match strip g with
                     | [] => []
                     | _ :: _ => [strip g]
                     end)
           (split_on NL (or_empty data)).

(** Line 323: the text the goals field is filled with. *)
Definition goals_text (stored : list str) : str := join [NL] stored.

Fixpoint update_first_profile (user_id : str) (p : Profile)
    (l : list ProfileDoc) : list ProfileDoc :=
  match l with
  | [] => []
  | d :: l' =>
      if str_eqb (p_user_id d) user_id then mkProfileDoc (p_user_id d) p :: l'
      else d :: update_first_profile user_id p l'
  end.

(** [update_one({'user_id': user_id}, {'$set': update_data})], where
    [update_data] sets the four keys of [Profile] (and [updated_at]). *)
Definition user_data_update_one (env : Env) (user_id : str) (p : Profile) : M unit :=
  mongo_call env UserData UpdateOne
    (fun w => (inr tt, set_user_data (update_first_profile user_id p) w)).

(** Lines 304-313, without [updated_at]. *)
Definition update_data (form : ProfileForm) : Profile :=
  mkProfile (pf_age form)
            (Some (goals_list (pf_mental_health_goals form)))
            (Some (get_or_empty (pf_stress_level form)))
            (Some (mkPreferences (Some (pf_therapy_preference form))
                                 (Some (pf_meditation_preference form)))).

(** Lines 321-327: the form filled from a stored document. *)
Definition prefill (form : ProfileForm) (d : ProfileDoc) : ProfileForm :=
  let prefs := match preferences (p_profile d) with
               | Some p => p
               | None => mkPreferences None None
               end in
  mkProfileForm (pf_validate_on_submit form)
                (age (p_profile d))
                (Some (goals_text (get_or_empty (goals (p_profile d)))))
                (Some (get_or_empty (stress_level (p_profile d))))
                (truthy_bool (therapy prefs))
                (truthy_bool (meditation prefs)).

Definition profile (env : Env) (current_user : User) (form : ProfileForm)
    : M (Reply ProfileForm) :=
  user_data <- user_data_find_one env (id current_user) ;;
  returned <-
    (if pf_validate_on_submit form then
       try_except
         (_ <- utcnow env ;;
          user_data_update_one env (id current_user) (update_data form) ;;
          flash MSG_PROFILE_UPDATED (lit "success") ;;
          ret (Some (moved (url_for "profile"))))
         (fun e =>
            logger_error (lit "Profile update error: " ++ exn_str e) ;;
            flash MSG_PROFILE_ERROR (lit "error") ;;
            ret None)
     else ret None) ;;
  match returned with
  | Some r => ret r
  | None =>
      ret (page "profile.html"
                (match user_data with
                 | Some d => prefill form d
                 | None => form
                 end))
  end.

(** *** dashboard (lines 279-294) *)

(** [.sort('timestamp', -1)]: newest first.  Records with equal stamps
    stay in the order of the store; the driver promises no order for
    them. *)
Fixpoint insert_desc (r : QARecord) (l : list QARecord) : list QARecord :=
  match l with
  | [] => [r]
  | x :: l' =>
      if q_timestamp x <=? q_timestamp r then r :: l
      else x :: insert_desc r l'
  end.

Fixpoint sort_desc (l : list QARecord) : list QARecord :=
  match l with
  | [] => []
  | r :: l' => insert_desc r (sort_desc l')
  end.

(** [list(qa_history.find({'user_id': user_id}).sort('timestamp', -1).limit(5))] *)
Definition recent_questions (drv : Driver) (user_id : str) : M (list QARecord) :=
  match find_fault drv with
  | Some e => raise e
  | None =>
      fun w =>
        (inr (firstn 5 (sort_desc
                          (filter (fun r => str_eqb (q_user_id r) user_id)
                                  (qa_history w)))),
         w)
  end.

(** [render_template('dashboard.html', recent_qa=..., user_data=...)] *)
Record Dashboard := mkDashboard {
  recent_qa : list QARecord;
  shown_user_data : option ProfileDoc
}.

Definition MSG_DASHBOARD_ERROR : str := lit "Error loading dashboard data.".

Definition dashboard (env : Env) (drv : Driver) (current_user : User) : M Dashboard :=
  try_except
    (recent <- recent_questions drv (id current_user) ;;
     found <- user_data_find_one env (id current_user) ;;
     ret (mkDashboard recent found))
    (fun e =>
       logger_error (lit "Dashboard error: " ++ exn_str e) ;;
       flash MSG_DASHBOARD_ERROR (lit "error") ;;
       ret (mkDashboard [] None)).

(** *** Predicates for the statements about these views *)

(** The names of the stored users are pairwise different. *)
Definition unique_usernames (l : list UserDoc) : Prop :=
  NoDup (flat_map (fun d => match u_username d with
                            | Some n => [n]
                            | None => []
                            end) l).

(** A goal as [goals_list] stores it: not empty, no white space at either
    end, on one line. *)
Definition tidy_goal (g : str) : Prop :=
  g <> [] /\ trimmed g /\ ~ In NL g.

(** A profile as [register] and [profile] write it: the goals are tidy
    lines, and the stress levels and both preferences are set. *)
Definition written_profile (p : Profile) : Prop :=
  (exists gs, goals p = Some gs /\ Forall tidy_goal gs) /\
  (exists ss, stress_level p = Some ss) /\
  (exists t m, preferences p = Some (mkPreferences (Some t) (Some m))).

(** The user has a document in [user_data]. *)
Definition has_profile (user_id : str) (w : World) : Prop :=
  exists d, In d (user_data w) /\ p_user_id d = user_id.

(** Newest first. *)
Fixpoint newest_first (l : list QARecord) : Prop :=
  match l with
  | [] => True
  | r :: l' => Forall (fun x => q_timestamp x <= q_timestamp r) l' /\ newest_first l'
  end.

(* ===================================================================== *)
(** ** Further sample collaborators *)
(* ===================================================================== *)

Module Demo.

Definition fault_at (c : Collection) (m : Method) : Collection -> Method -> option Exn :=
  fun c' m' =>
    match c, c', m, m' with
    | Users, Users, FindOne, FindOne
    | Users, Users, InsertOne, InsertOne
    | Users, Users, UpdateOne, UpdateOne
    | UserData, UserData, FindOne, FindOne
    | UserData, UserData, InsertOne, InsertOne
    | UserData, UserData, UpdateOne, UpdateOne
    | QaHistory, QaHistory, FindOne, FindOne
    | QaHistory, QaHistory, InsertOne, InsertOne
    | QaHistory, QaHistory, CountDocuments, CountDocuments => Some Sample.UNAVAILABLE
    | _, _, _, _ => None
    end.

(** The sample collaborators with one operation of the store raising. *)
Definition env_down (c : Collection) (m : Method) : Env :=
  Sample.env_with (fault_at c m) Sample.ADVICE.

Definition alice_doc : UserDoc :=
  mkUserDoc Sample.ALICE_ID (Some (lit "alice"))
            (Some (Sample.toy_hash (lit "Passw0rd"))) (Some true) None.

Definition alice_login : LoginForm :=
  mkLoginForm true (Some (lit " Alice ")) (Some (lit "Passw0rd")).


(** A driver over the toy hasher; the identifier of a new user is made of
    the number of users already stored. *)
Definition new_id (l : list UserDoc) : str :=
  lit "user-" ++ str_of_int (Z.of_nat (List.length l)).

Definition driver : Driver :=
  mkDriver (fun p => inr (Sample.toy_hash p)) new_id None.

Definition driver_down : Driver :=
  mkDriver (fun p => inr (Sample.toy_hash p)) new_id (Some Sample.UNAVAILABLE).

Definition alice_profile : ProfileDoc :=
  mkProfileDoc Sample.ALICE_ID
    (mkProfile (Some 30) (Some [lit "sleep better"]) (Some [lit "high"])
               (Some (mkPreferences (Some true) (Some false)))).

Definition bob_profile : ProfileDoc := mkProfileDoc Sample.BOB_ID DEFAULT_PROFILE.

(** A world with the profiles of bob and alice. *)
Definition settled : World :=
  mkWorld Sample.directory [bob_profile; alice_profile] [] [] [] [] None 0.

Definition new_goals : ProfileForm :=
  mkProfileForm true (Some 31)
    (Some (lit " worry less " ++ [NL; NL] ++ lit "walk daily"))
    (Some [lit "medium"]) false true.

(** The sample collaborators with a clock half a millisecond past the
    second. *)
Definition env_late : Env :=
  mkEnv (getenv Sample.env)
        (fun n => Sample.T0 + 500 + Z.of_nat n * Sample.SECOND)
        Sample.no_fault (ObjectId Sample.env)
        Sample.toy_check Sample.ascii_lower (fun _ => None)
        (fun _ _ => Sample.ADVICE).




End Demo.

(* ===================================================================== *)
(** ** Facts about text *)
(* ===================================================================== *)

Section TextFacts.

Variable p : char -> bool.

Lemma dropwhile_split (s : str) :
  exists pre, s = pre ++ dropwhile p s /\ Forall (fun c => p c = true) pre.
Proof.
  induction s as [|c s IH]; simpl.
  - exists []. split; [reflexivity | constructor].
  - destruct (p c) eqn:Hc.
    + destruct IH as [pre [Heq Hall]].
      exists (c :: pre). split.
      * simpl. f_equal. exact Heq.
      * constructor; assumption.
    + exists []. split; [reflexivity | constructor].
Qed.

Lemma dropwhile_starts_outside (s : str) : starts_outside p (dropwhile p s).
Proof.
  induction s as [|c s IH]; simpl; [exact I|].
  destruct (p c) eqn:Hc; [exact IH | simpl; exact Hc].
Qed.

Lemma dropwhile_fixed (s : str) : starts_outside p s -> dropwhile p s = s.
Proof.
  destruct s as [|c s]; simpl; [reflexivity|].
  intros ->. reflexivity.
Qed.

Lemma starts_outside_prefix (a b : str) :
  starts_outside p (a ++ b) -> starts_outside p a.
Proof. destruct a; simpl; auto. Qed.

End TextFacts.

Lemma strip_split (s : str) :
  exists pre post, s = pre ++ strip s ++ post /\ all_space pre /\ all_space post.
Proof.
  unfold strip, rstrip, lstrip.
  destruct (dropwhile_split isspace s) as [pre [Hs Hpre]].
  destruct (dropwhile_split isspace (rev (dropwhile isspace s))) as [tl [Hr Htl]].
  exists pre, (rev tl). repeat split.
  - rewrite Hs at 1. f_equal.
    rewrite <- rev_app_distr, <- Hr, rev_involutive. reflexivity.
  - exact Hpre.
  - unfold all_space. apply Forall_rev. exact Htl.
Qed.

Lemma strip_trimmed (s : str) : trimmed (strip s).
Proof.
  unfold trimmed, strip, rstrip, lstrip. split.
  - destruct (dropwhile_split isspace (rev (dropwhile isspace s))) as [tl [Hr _]].
    apply starts_outside_prefix with (b := rev tl).
    rewrite <- rev_app_distr, <- Hr, rev_involutive.
    apply dropwhile_starts_outside.
  - rewrite rev_involutive. apply dropwhile_starts_outside.
Qed.

Lemma strip_fixed (s : str) : trimmed s -> strip s = s.
Proof.
  intros [Hl Hr]. unfold strip, rstrip, lstrip.
  rewrite (dropwhile_fixed isspace s Hl).
  rewrite (dropwhile_fixed isspace (rev s) Hr).
  apply rev_involutive.
Qed.

Lemma strip_idempotent (s : str) : strip (strip s) = strip s.
Proof. apply strip_fixed, strip_trimmed. Qed.

Lemma strip_incl (s : str) (c : char) : In c (strip s) -> In c s.
Proof.
  intros Hin. destruct (strip_split s) as [pre [post [Hs _]]].
  rewrite Hs. apply in_or_app. right. apply in_or_app. left. exact Hin.
Qed.

Lemma re_sub_empty_clean (cls : char -> bool) (s : str) (c : char) :
  In c (re_sub_empty cls s) -> cls c = false.
Proof.
  unfold re_sub_empty. intros Hin. apply filter_In in Hin.
  destruct Hin as [_ Hc]. apply negb_true_iff in Hc. exact Hc.
Qed.

Lemma re_sub_empty_fixed (cls : char -> bool) (s : str) :
  (forall c, In c s -> cls c = false) -> re_sub_empty cls s = s.
Proof.
  unfold re_sub_empty. induction s as [|c s IH]; simpl; intros H; [reflexivity|].
  rewrite (H c (or_introl eq_refl)). simpl. f_equal.
  apply IH. intros d Hd. apply H. right. exact Hd.
Qed.

Lemma is_dangerous_spec (c : char) :
  is_dangerous c = false <-> c <> LT /\ c <> GT /\ c <> DQUOTE /\ c <> SQUOTE.
Proof.
  unfold is_dangerous. rewrite !orb_false_iff, !N.eqb_neq. tauto.
Qed.

Lemma sanitize_input_clean (text : option str) (c : char) :
  In c (sanitize_input text) -> is_dangerous c = false.
Proof.
  unfold sanitize_input. destruct (falsy text); [intros []|].
  destruct text as [t|]; [|intros []].
  intros Hin. apply strip_incl in Hin.
  eapply re_sub_empty_clean. exact Hin.
Qed.

Lemma str_eqb_eq (a b : str) : str_eqb a b = true <-> a = b.
Proof.
  revert b. induction a as [|x a IH]; intros [|y b]; simpl;
    try (split; [discriminate | discriminate]); [tauto|].
  unfold char_eqb. rewrite andb_true_iff, N.eqb_eq, IH.
  split; [intros [-> ->]; reflexivity | intros H; inversion H; auto].
Qed.

Lemma str_eqb_refl (a : str) : str_eqb a a = true.
Proof. apply str_eqb_eq. reflexivity. Qed.

Lemma str_eqb_neq (a b : str) : str_eqb a b = false <-> a <> b.
Proof.
  rewrite <- str_eqb_eq. destruct (str_eqb a b); split; congruence.
Qed.

(* ===================================================================== *)
(** ** The password policy *)
(* ===================================================================== *)

Lemma re_search_none (cls : char -> bool) (s : str) :
  (forall c, In c s -> cls c = false) -> re_search cls s = false.
Proof.
  unfold re_search. induction s as [|c s IH]; simpl; intros H; [reflexivity|].
  rewrite (H c (or_introl eq_refl)). simpl.
  apply IH. intros d Hd. apply H. right. exact Hd.
Qed.

Lemma re_search_some (cls : char -> bool) (s : str) :
  (exists c, In c s /\ cls c = true) -> re_search cls s = true.
Proof.
  unfold re_search. intros [c [Hin Hc]]. apply existsb_exists. eauto.
Qed.

(** C5.  A password shorter than eight characters is refused with the
    length message whatever it contains; the rules are tried in the order
    length, letter, digit, and the first rule that fails gives the message:
    a password long enough without a letter gets the letter message (also
    when it has no digit), one with a letter and no digit gets the digit
    message, and a password passing all three is accepted. *)
Theorem validate_password_first_failure (password : str) :
  (len password < 8 ->
   validate_password password = (false, MSG_TOO_SHORT)) /\
  (8 <= len password ->
   (forall c, In c password -> is_ascii_letter c = false) ->
   validate_password password = (false, MSG_NO_LETTER)) /\
  (8 <= len password ->
   (exists c, In c password /\ is_ascii_letter c = true) ->
   (forall c, In c password -> is_ascii_digit c = false) ->
   validate_password password = (false, MSG_NO_NUMBER)) /\
  (8 <= len password ->
   (exists c, In c password /\ is_ascii_letter c = true) ->
   (exists c, In c password /\ is_ascii_digit c = true) ->
   validate_password password = (true, MSG_VALID)).
Proof.
  unfold validate_password. repeat split.
  - intros Hlen. apply Z.ltb_lt in Hlen. rewrite Hlen. reflexivity.
  - intros Hlen Hletter. apply Z.ltb_ge in Hlen. rewrite Hlen.
    rewrite (re_search_none _ _ Hletter). reflexivity.
  - intros Hlen Hletter Hdigit. apply Z.ltb_ge in Hlen. rewrite Hlen.
    rewrite (re_search_some _ _ Hletter), (re_search_none _ _ Hdigit).
    reflexivity.
  - intros Hlen Hletter Hdigit. apply Z.ltb_ge in Hlen. rewrite Hlen.
    rewrite (re_search_some _ _ Hletter), (re_search_some _ _ Hdigit).
    reflexivity.
Qed.

Lemma validate_password_first_failure_witness :
  validate_password (lit "Ab1<") = (false, MSG_TOO_SHORT) /\
  validate_password (lit "12345678") = (false, MSG_NO_LETTER) /\
  validate_password (lit "onlyletters") = (false, MSG_NO_NUMBER) /\
  validate_password (lit "Passw0rd") = (true, MSG_VALID).
Proof.
  split; [|split; [|split]].
  - apply (proj1 (validate_password_first_failure (lit "Ab1<"))).
    reflexivity.
  - apply (proj1 (proj2 (validate_password_first_failure (lit "12345678")))).
    + discriminate.
    + intros c Hc. simpl in Hc.
      repeat (destruct Hc as [<- | Hc]; [reflexivity|]). destruct Hc.
  - apply (proj1 (proj2 (proj2 (validate_password_first_failure (lit "onlyletters"))))).
    + discriminate.
    + exists 111%N. split; [left; reflexivity | reflexivity].
    + intros c Hc. simpl in Hc.
      repeat (destruct Hc as [<- | Hc]; [reflexivity|]). destruct Hc.
  - apply (proj2 (proj2 (proj2 (validate_password_first_failure (lit "Passw0rd"))))).
    + discriminate.
    + exists 80%N. split; [left; reflexivity | reflexivity].
    + exists 48%N. split; [simpl; tauto | reflexivity].
Defined.

(* ===================================================================== *)
(** ** The sanitizer *)
(* ===================================================================== *)

Lemma sanitize_input_trimmed (text : option str) : trimmed (sanitize_input text).
Proof.
  unfold sanitize_input. destruct (falsy text).
  - split; exact I.
  - destruct text as [t|]; [apply strip_trimmed | split; exact I].
Qed.

Lemma sanitize_input_harmless (text : option str) : harmless (sanitize_input text).
Proof.
  assert (H : forall c, is_dangerous c = true -> ~ In c (sanitize_input text)).
  { intros c Hc Hin. apply sanitize_input_clean in Hin. congruence. }
  unfold harmless. repeat split; apply H; reflexivity.
Qed.

(** C6.  The result of [sanitize_input] holds none of the four characters;
    it is what is left of the input once those characters are deleted, minus
    a run of white space at the front and one at the back, so the characters
    that remain keep their order; it neither starts nor ends with white
    space; and the absent input and the empty string both give the empty
    string. *)
Theorem sanitize_input_contract (text : option str) :
  (~ In LT (sanitize_input text) /\ ~ In GT (sanitize_input text) /\
   ~ In DQUOTE (sanitize_input text) /\ ~ In SQUOTE (sanitize_input text)) /\
  (exists pre post,
     filter (fun c => negb (is_dangerous c)) (or_empty text)
       = pre ++ sanitize_input text ++ post
     /\ all_space pre /\ all_space post) /\
  trimmed (sanitize_input text) /\
  sanitize_input None = [] /\
  sanitize_input (Some []) = [].
Proof.
  split; [|split; [|split; [|split]]].
  - apply sanitize_input_harmless.
  - unfold sanitize_input. destruct text as [[|c t]|]; simpl falsy; cbv iota.
    + exists [], []. repeat split; constructor.
    + apply (strip_split (re_sub_empty is_dangerous (c :: t))).
    + exists [], []. repeat split; constructor.
  - apply sanitize_input_trimmed.
  - reflexivity.
  - reflexivity.
Qed.

(** C9.  Sanitizing twice is the same as sanitizing once. *)
Theorem sanitize_input_idempotent (s : option str) :
  sanitize_input (Some (sanitize_input s)) = sanitize_input s.
Proof.
  pose proof (sanitize_input_trimmed s) as Htrim.
  pose proof (sanitize_input_clean s) as Hclean.
  destruct (sanitize_input s) as [|c r] eqn:Hr; [reflexivity|].
  unfold sanitize_input at 1. simpl falsy. cbv iota.
  rewrite (re_sub_empty_fixed is_dangerous (c :: r) Hclean).
  apply strip_fixed. exact Htrim.
Qed.

(* ===================================================================== *)
(** ** The rate limiter *)
(* ===================================================================== *)

Section Counting.

Variable A : Type.
Variable q : A -> bool.



Lemma filter_drops_all (l : list A) :
  Forall (fun x => q x = false) l -> filter q l = [].
Proof.
  induction 1 as [| x l Hx _ IH]; simpl; [reflexivity|].
  rewrite Hx. exact IH.
Qed.

End Counting.

Lemma match_window_true (user_id : str) (start : Z) (r : QARecord) :
  match_window user_id start r = true <-> in_window user_id start r.
Proof.
  unfold match_window, in_window.
  rewrite andb_true_iff, str_eqb_eq, Z.leb_le. tauto.
Qed.

Lemma match_window_false (user_id : str) (start : Z) (r : QARecord) :
  match_window user_id start r = false <-> out_of_window user_id start r.
Proof.
  unfold match_window, out_of_window.
  rewrite andb_false_iff, str_eqb_neq, Z.leb_gt. tauto.
Qed.


(** The check when the store answers: one clock read, one count, nothing
    logged. *)
Lemma rate_limit_check_answered (env : Env) (user_id : str) (limit window : Z) (w : World) :
  mongo_fault env QaHistory CountDocuments = None ->
  rate_limit_check env user_id limit window w =
    (inr (Z.of_nat (List.length
            (filter (match_window user_id (next_utcnow env w - timedelta_seconds window))
                    (qa_history w))) <? limit),
     set_clock_reads (S (clock_reads w)) w).
Proof.
  intros Hok.
  unfold rate_limit_check, try_except, bind, utcnow, qa_history_count_documents,
    mongo_call, next_utcnow.
  rewrite Hok. reflexivity.
Qed.

(** The check when the count raises. *)
Lemma rate_limit_check_raised (env : Env) (user_id : str) (limit window : Z)
    (w : World) (e : Exn) :
  mongo_fault env QaHistory CountDocuments = Some e ->
  rate_limit_check env user_id limit window w =
    (inr true,
     set_log (fun l => l ++ [(ERROR, lit "Rate limit check error: " ++ exn_str e)])
             (set_clock_reads (S (clock_reads w)) w)).
Proof.
  intros Hfault.
  unfold rate_limit_check, try_except, bind, utcnow, qa_history_count_documents,
    mongo_call.
  rewrite Hfault. reflexivity.
Qed.

(** *** The check over the dates of Python and of the store *)


Lemma bson_millis_mono (a b : Z) :
  a <= b -> Dates.bson_millis a <= Dates.bson_millis b.
Proof.
  intros Hle. unfold Dates.bson_millis.
  apply Z.mul_le_mono_nonneg_l; [lia|].
  apply Z.div_le_mono; lia.
Qed.

Lemma window_start_of_value (now window start : Z) :
  Dates.window_start_of now window = inr start ->
  start = now - timedelta_seconds window.
Proof.
  unfold Dates.window_start_of, Dates.timedelta, Dates.datetime_sub,
    timedelta_seconds.
  destruct (Z.abs (window / 86400) >? Dates.MAX_DELTA_DAYS); [discriminate|].
  destruct ((now - window * 1000000 <? Dates.DATETIME_MIN)
            || (Dates.DATETIME_MAX <? now - window * 1000000))%bool;
    [discriminate|].
  intros H. injection H as <-. reflexivity.
Qed.

(** The check when the window start exists and the store answers. *)
Lemma dated_check_answered (env : Env) (user_id : str) (limit window : Z)
    (w : World) (start : Z) :
  Dates.window_start_of (next_utcnow env w) window = inr start ->
  mongo_fault env QaHistory CountDocuments = None ->
  Dates.rate_limit_check env user_id limit window w =
    (inr (Z.of_nat (List.length
            (filter (match_window user_id (Dates.bson_millis start))
                    (qa_history w))) <? limit),
     set_clock_reads (S (clock_reads w)) w).
Proof.
  intros Hstart Hok.
  unfold Dates.rate_limit_check, try_except, bind, utcnow,
    qa_history_count_documents, mongo_call, next_utcnow in *.
  cbn [clock_reads set_clock_reads]. rewrite Hstart. unfold lift, ret.
  rewrite Hok. reflexivity.
Qed.

(** The check when the window start exists and the count raises. *)
Lemma dated_check_raised (env : Env) (user_id : str) (limit window : Z)
    (w : World) (start : Z) (e : Exn) :
  Dates.window_start_of (next_utcnow env w) window = inr start ->
  mongo_fault env QaHistory CountDocuments = Some e ->
  fst (Dates.rate_limit_check env user_id limit window w) = inr true.
Proof.
  intros Hstart Hfault.
  unfold Dates.rate_limit_check, try_except, bind, utcnow,
    qa_history_count_documents, mongo_call, next_utcnow in *.
  cbn [clock_reads set_clock_reads]. rewrite Hstart. unfold lift, ret.
  rewrite Hfault. reflexivity.
Qed.







(* ===================================================================== *)
(** ** The session loader *)
(* ===================================================================== *)

Lemma find_none_by_id (oid : str) (l : list UserDoc) :
  (forall d, In d l -> u_id d <> oid) -> find (match_id oid) l = None.
Proof.
  induction l as [|d l IH]; simpl; intros H; [reflexivity|].
  unfold match_id at 1.
  destruct (str_eqb (u_id d) oid) eqn:Heq.
  - apply str_eqb_eq in Heq. exfalso. apply (H d); auto.
  - apply IH. intros d' Hd'. apply H. auto.
Qed.

(** C7.  [user_loader] returns a value for every session identifier, in
    every world and with every behaviour of the collaborators; the value
    is [None] when the identifier is not a valid [ObjectId], when the
    lookup raises, when no document has that identifier, and when the
    document found lacks its [username]. *)
Theorem user_loader_never_raises (env : Env) (user_id : str) (w : World) :
  (exists r, fst (user_loader env user_id w) = inr r) /\
  (forall e, ObjectId env user_id = inl e ->
             fst (user_loader env user_id w) = inr None) /\
  (forall e, mongo_fault env Users FindOne = Some e ->
             fst (user_loader env user_id w) = inr None) /\
  (forall oid, ObjectId env user_id = inr oid ->
               (forall d, In d (users w) -> u_id d <> oid) ->
               fst (user_loader env user_id w) = inr None) /\
  (forall oid d, ObjectId env user_id = inr oid ->
                 find (match_id oid) (users w) = Some d ->
                 u_username d = None ->
                 fst (user_loader env user_id w) = inr None).
Proof.
  unfold user_loader, try_except, bind, lift, users_find_one, mongo_call,
    getitem_username, logger_error, raise, ret.
  destruct (ObjectId env user_id) as [e0|oid0] eqn:Hoid.
  - cbn [fst]. repeat split; try discriminate; eauto.
  - destruct (mongo_fault env Users FindOne) as [e1|] eqn:Hfault.
    + cbn [fst]. repeat split; try discriminate; eauto.
    + destruct (find (match_id oid0) (users w)) as [d0|] eqn:Hfind.
      * destruct (u_username d0) as [n|] eqn:Hname.
        -- cbn [fst]. split; [eauto|]. split; [discriminate|]. split; [discriminate|].
           split.
           ++ intros oid Heq Hnone. injection Heq as <-.
              rewrite (@find_none_by_id oid0 (users w) Hnone) in Hfind. discriminate.
           ++ intros oid d Heq Hd Hd'. injection Heq as <-.
              rewrite Hfind in Hd. injection Hd as <-. congruence.
        -- cbn [fst]. repeat split; eauto.
      * cbn [fst]. repeat split; eauto.
Qed.

Lemma user_loader_never_raises_witness :
  fst (user_loader Sample.env (lit "tampered") Sample.quiet) = inr None /\
  fst (user_loader (Sample.env_with Sample.users_down Sample.ADVICE)
                   Sample.ALICE_ID Sample.quiet) = inr None /\
  fst (user_loader Sample.env (lit "000000000000000000000000") Sample.quiet) = inr None /\
  fst (user_loader Sample.env Sample.CAROL_ID Sample.quiet) = inr None.
Proof.
  split; [|split; [|split]].
  - apply (proj1 (proj2 (user_loader_never_raises
                           Sample.env (lit "tampered") Sample.quiet))
             (mkExn (lit "InvalidId") (lit "not a valid ObjectId"))).
    reflexivity.
  - apply (proj1 (proj2 (proj2 (user_loader_never_raises
                           (Sample.env_with Sample.users_down Sample.ADVICE)
                           Sample.ALICE_ID Sample.quiet)))
             Sample.UNAVAILABLE).
    reflexivity.
  - apply (proj1 (proj2 (proj2 (proj2 (user_loader_never_raises
                           Sample.env (lit "000000000000000000000000")
                           Sample.quiet))))
             (lit "000000000000000000000000")).
    + reflexivity.
    + intros d Hd. simpl in Hd.
      destruct Hd as [<- | [<- | [<- | []]]]; discriminate.
  - apply (proj2 (proj2 (proj2 (proj2 (user_loader_never_raises
                           Sample.env Sample.CAROL_ID Sample.quiet))))
             Sample.CAROL_ID
             (mkUserDoc Sample.CAROL_ID None
                        (Some (Sample.toy_hash (lit "Passw0rd"))) (Some true) None)).
    + reflexivity.
    + reflexivity.
    + reflexivity.
Defined.

(* ===================================================================== *)
(** ** Login *)
(* ===================================================================== *)

Lemma find_none (A : Type) (q : A -> bool) (l : list A) :
  (forall d, In d l -> q d = false) -> find q l = None.
Proof.
  induction l as [|d l IH]; simpl; intros H; [reflexivity|].
  rewrite (H d (or_introl eq_refl)). apply IH. intros d' Hd'. apply H. auto.
Qed.

Lemma match_login_other_name (name : str) (d : UserDoc) :
  u_username d <> Some name -> match_login name d = false.
Proof.
  unfold match_login. intros Hne.
  destruct (u_username d) as [n|]; [|reflexivity].
  destruct (u_is_active d) as [[|]|]; try reflexivity.
  apply str_eqb_neq. congruence.
Qed.

Lemma match_login_inactive (name : str) (d : UserDoc) :
  u_is_active d <> Some true -> match_login name d = false.
Proof.
  unfold match_login. intros Hne.
  destruct (u_username d) as [n|]; [|reflexivity].
  destruct (u_is_active d) as [[|]|]; congruence.
Qed.

(** What the lookup and the hasher make of refused credentials: either no
    document is found, or the hash of the one found does not verify. *)
Lemma refusal_lookup (env : Env) (w : World) (name : str) (password : option str) :
  Refusal env w name password ->
  find (match_login name) (users w) = None \/
  exists d h, find (match_login name) (users w) = Some d /\
              u_password d = Some h /\
              check_password_hash env h password = inr false.
Proof.
  intros [Hunknown | _ Hinactive | d h Hfind Hpw Hcheck].
  - left. apply find_none. intros d Hd.
    apply match_login_other_name. apply Hunknown. exact Hd.
  - left. apply find_none. intros d Hd.
    destruct (u_username d) as [n|] eqn:Hn.
    + destruct (str_eqb n name) eqn:Heq.
      * apply str_eqb_eq in Heq. subst n.
        apply match_login_inactive. apply Hinactive; assumption.
      * apply match_login_other_name. rewrite Hn.
        apply str_eqb_neq in Heq. congruence.
    + apply match_login_other_name. rewrite Hn. discriminate.
  - right. exists d, h. auto.
Qed.

(** The run of [login] on refused credentials: the login page again, one
    flashed message, nothing else touched. *)
Lemma login_refused (env : Env) (form : LoginForm) (next : option str) (w : World) :
  refused_login env form w ->
  login env form next w =
    (inr (render_template "login.html" (ctx_login form)),
     set_flashes (fun l => l ++ [(MSG_INVALID_LOGIN, lit "error")]) w).
Proof.
  intros [Hvalid [Hok [raw [Hraw Hrefusal]]]].
  apply refusal_lookup in Hrefusal.
  unfold login, data_lower. rewrite Hvalid, Hraw.
  unfold try_except, bind, users_find_one, mongo_call, ret.
  rewrite Hok.
  destruct Hrefusal as [Hnone | [d [h [Hfind [Hpw Hcheck]]]]].
  - rewrite Hnone. reflexivity.
  - rewrite Hfind. unfold getitem_password. rewrite Hpw.
    unfold ret, lift. rewrite Hcheck. reflexivity.
Qed.

Lemma skipn_length_app (A : Type) (l r : list A) :
  skipn (List.length l) (l ++ r) = r.
Proof. induction l as [|x l IH]; simpl; [reflexivity | exact IH]. Qed.

(** C8.  Take any two login attempts whose credentials are refused, each
    for any of the three reasons (no such username, account not active,
    password not matching the stored hash).  Each flashes exactly the one
    message "Invalid username or password." in category "error" and
    answers with the login page, so the messages of the two attempts are
    equal; nothing is logged and no session is opened.  In particular the
    same form submitted against a store without the user and against a
    store with the user and another password gets the same response. *)
Theorem login_refusal_indistinguishable
    (env1 env2 : Env) (form1 form2 : LoginForm) (next1 next2 : option str)
    (w1 w2 : World) :
  refused_login env1 form1 w1 ->
  refused_login env2 form2 w2 ->
  flashed w1 (snd (login env1 form1 next1 w1)) = [(MSG_INVALID_LOGIN, lit "error")] /\
  flashed w2 (snd (login env2 form2 next2 w2))
    = flashed w1 (snd (login env1 form1 next1 w1)) /\
  fst (login env1 form1 next1 w1) = inr (render_template "login.html" (ctx_login form1)) /\
  fst (login env2 form2 next2 w2) = inr (render_template "login.html" (ctx_login form2)) /\
  (form1 = form2 -> fst (login env1 form1 next1 w1) = fst (login env2 form2 next2 w2)) /\
  log (snd (login env1 form1 next1 w1)) = log w1 /\
  session_user (snd (login env1 form1 next1 w1)) = session_user w1.
Proof.
  intros H1 H2.
  rewrite (login_refused next1 H1), (login_refused next2 H2).
  cbn [fst snd]. unfold flashed, set_flashes. cbn [flashes log session_user].
  rewrite !skipn_length_app.
  repeat split. intros ->. reflexivity.
Qed.

Lemma login_refusal_indistinguishable_witness :
  flashed Sample.quiet
    (snd (login Sample.env
                (mkLoginForm true (Some (lit "Alice")) (Some (lit "wrong")))
                None Sample.quiet))
  = flashed (Sample.world_with Sample.recent)
    (snd (login Sample.env
                (mkLoginForm true (Some (lit "Mallory")) (Some (lit "wrong")))
                None (Sample.world_with Sample.recent))).
Proof.
  apply (@login_refusal_indistinguishable
           Sample.env Sample.env
           (mkLoginForm true (Some (lit "Mallory")) (Some (lit "wrong")))
           (mkLoginForm true (Some (lit "Alice")) (Some (lit "wrong")))
           None None (Sample.world_with Sample.recent) Sample.quiet).
  - split; [reflexivity|]. split; [reflexivity|].
    exists (lit "Mallory"). split; [reflexivity|].
    apply unknown_user. intros d Hd. simpl in Hd.
    destruct Hd as [<- | [<- | [<- | []]]]; discriminate.
  - split; [reflexivity|]. split; [reflexivity|].
    exists (lit "Alice"). split; [reflexivity|].
    apply wrong_password with
      (d := mkUserDoc Sample.ALICE_ID (Some (lit "alice"))
                      (Some (Sample.toy_hash (lit "Passw0rd"))) (Some true) None)
      (h := Sample.toy_hash (lit "Passw0rd")); reflexivity.
Defined.

(* ===================================================================== *)
(** ** Asking a question *)
(* ===================================================================== *)

Ltac world_fields :=
  cbn [fst snd users user_data qa_history log flashes genai_trace session_user
       clock_reads set_users set_qa_history set_log set_flashes set_genai_trace
       set_session_user set_clock_reads] in *.

(** The two ways a run of the check can go. *)
Lemma rate_limit_check_cases (env : Env) (user_id : str) (limit window : Z) (w : World) :
  (exists b, rate_limit_check env user_id limit window w =
               (inr b, set_clock_reads (S (clock_reads w)) w)) \/
  (exists e, rate_limit_check env user_id limit window w =
               (inr true,
                set_log (fun l => l ++ [(ERROR, lit "Rate limit check error: " ++ exn_str e)])
                        (set_clock_reads (S (clock_reads w)) w))).
Proof.
  destruct (mongo_fault env QaHistory CountDocuments) as [e|] eqn:Hfault.
  - right. exists e. apply rate_limit_check_raised. exact Hfault.
  - left. eexists. apply rate_limit_check_answered. exact Hfault.
Qed.

(** A refusal by the check leaves only the clock read behind. *)
Lemma rate_limit_check_refuses (env : Env) (user_id : str) (limit window : Z) (w : World) :
  fst (rate_limit_check env user_id limit window w) = inr false ->
  rate_limit_check env user_id limit window w =
    (inr false, set_clock_reads (S (clock_reads w)) w).
Proof.
  destruct (rate_limit_check_cases env user_id limit window w) as [[b Hb] | [e He]].
  - rewrite Hb. cbn [fst]. intros H. injection H as ->. reflexivity.
  - rewrite He. cbn [fst]. discriminate.
Qed.


(** The profile lookup never raises and touches the log at most. *)
Lemma fetch_user_data_run (env : Env) (user_id : str) (w : World) :
  exists w2 lines,
    fetch_user_data env user_id w = (inr (fetched_profile env user_id w), w2) /\
    users w2 = users w /\ user_data w2 = user_data w /\
    qa_history w2 = qa_history w /\ flashes w2 = flashes w /\
    genai_trace w2 = genai_trace w /\ log w2 = log w ++ lines.
Proof.
  unfold fetch_user_data, fetched_profile, try_except, bind, user_data_find_one,
    mongo_call, logger_error, raise, ret.
  destruct (mongo_fault env UserData FindOne) as [e|].
  - eexists. eexists. split; [reflexivity|]. world_fields. repeat split.
  - exists w, []. split; [reflexivity|]. rewrite app_nil_r. repeat split.
Qed.

Lemma fetched_profile_same_store (env : Env) (user_id : str) (w w' : World) :
  user_data w' = user_data w ->
  fetched_profile env user_id w' = fetched_profile env user_id w.
Proof. unfold fetched_profile. intros ->. reflexivity. Qed.


(** The run of [ask] when the check refuses. *)
Lemma ask_refused_run (env : Env) (current_user : User) (form : QuestionForm)
    (w : World) :
  qf_validate_on_submit form = true ->
  fst (rate_limit_check env (id current_user) 10 3600 w) = inr false ->
  ask env current_user form w =
    (inr (render_template "ask.html" (ctx_question form)),
     set_flashes (fun l => l ++ [(MSG_RATE_LIMITED, lit "warning")])
                 (set_clock_reads (S (clock_reads w)) w)).
Proof.
  intros Hvalid Hrefused.
  apply rate_limit_check_refuses in Hrefused.
  unfold ask. rewrite Hvalid. unfold bind at 1. rewrite Hrefused.
  reflexivity.
Qed.






(** The check never raises and never touches the history. *)
Lemma rate_limit_check_keeps_history (env : Env) (user_id : str)
    (limit window : Z) (w : World) :
  exists b w1,
    rate_limit_check env user_id limit window w = (inr b, w1) /\
    qa_history w1 = qa_history w.
Proof.
  destruct (rate_limit_check_cases env user_id limit window w) as [[b Hb] | [e He]].
  - exists b. eexists. split; [exact Hb | reflexivity].
  - exists true. eexists. split; [exact He | reflexivity].
Qed.

(** The call of the model either leaves the history alone or appends the
    one record made of the question it was given and a non-empty answer,
    and then returns the answer page. *)
Lemma ask_gemini_saves (env : Env) (current_user : User) (form : QuestionForm)
    (question prompt : str) (w : World) :
  qa_history (snd (ask_gemini env current_user form question prompt w))
    = qa_history w \/
  exists answer t,
    answer <> [] /\
    qa_history (snd (ask_gemini env current_user form question prompt w))
      = qa_history w ++ [mkQARecord (id current_user) (username current_user)
                                    question answer t] /\
    fst (ask_gemini env current_user form question prompt w)
      = inr (render_template "response.html" (ctx_answer question answer)).
Proof.
  unfold ask_gemini, try_except, bind, GenerativeModel, generate_content, lift,
    utcnow, qa_history_insert_one, mongo_call, logger_error, flash, raise, ret.
  destruct (GenerativeModel_fault env (GEMINI_MODEL env)) as [e|];
    [left; reflexivity|].
  destruct (generate_content_result env (GEMINI_MODEL env) prompt) as [e|resp];
    [left; reflexivity|].
  destruct (getattr_text resp) as [e|t]; [left; reflexivity|].
  destruct (strip (or_empty t)) as [|c answer] eqn:Hanswer;
    cbn [falsy]; [left; reflexivity|].
  destruct (mongo_fault env QaHistory InsertOne) as [e|];
    [left; reflexivity|].
  right. exists (c :: answer). eexists.
  split; [discriminate|]. split; reflexivity.
Qed.

(** The same for the whole view, with the sanitized question. *)
Lemma ask_saves (env : Env) (current_user : User) (form : QuestionForm) (w : World) :
  qa_history (snd (ask env current_user form w)) = qa_history w \/
  exists answer t,
    answer <> [] /\
    qa_history (snd (ask env current_user form w))
      = qa_history w ++ [mkQARecord (id current_user) (username current_user)
                                    (sanitize_input (qf_question form)) answer t] /\
    fst (ask env current_user form w)
      = inr (render_template "response.html"
               (ctx_answer (sanitize_input (qf_question form)) answer)).
Proof.
  destruct (ask env current_user form w) as [r w'] eqn:Hask. cbn [fst snd].
  unfold ask in Hask.
  destruct (qf_validate_on_submit form).
  2: { unfold ret in Hask. injection Hask as <- <-. left. reflexivity. }
  unfold bind at 1 in Hask.
  destruct (rate_limit_check_keeps_history env (id current_user) 10 3600 w)
    as [b [w1 [Hrun1 Hq1]]].
  rewrite Hrun1 in Hask. destruct b; cbn [negb] in Hask.
  - unfold bind at 1 in Hask.
    destruct (fetch_user_data_run env (id current_user) w1)
      as [w2 [l2 [Hrun2 [_ [_ [Hq2 _]]]]]].
    rewrite Hrun2 in Hask.
    destruct (falsy (GEMINI_API_KEY env)).
    + unfold bind, logger_error, flash, ret in Hask.
      injection Hask as <- <-. left. world_fields. congruence.
    + pose proof (ask_gemini_saves env current_user form
                    (sanitize_input (qf_question form))
                    (build_prompt
                       (user_context (fetched_profile env (id current_user) w1))
                       (sanitize_input (qf_question form)))
                    w2) as Hsaves.
      rewrite Hask in Hsaves. cbn [fst snd] in Hsaves.
      rewrite Hq2, Hq1 in Hsaves. exact Hsaves.
  - unfold bind, flash, ret in Hask.
    injection Hask as <- <-. left. world_fields. exact Hq1.
Qed.

Lemma app_one_more (A : Type) (l : list A) (x : A) : l <> l ++ [x].
Proof.
  intros H. apply (f_equal (@List.length A)) in H.
  rewrite length_app in H. simpl in H. lia.
Qed.

(** C10.  A run of [ask] leaves the history as it was or appends exactly
    one record; the record it appends carries the user's identity, the
    question after [sanitize_input] (hence none of the four characters) and
    a non-empty answer, and the run then returns the answer page showing
    that question and that answer. *)
Theorem ask_saves_sanitized (env : Env) (current_user : User)
    (form : QuestionForm) (w : World) :
  (qa_history (snd (ask env current_user form w)) = qa_history w \/
   exists r, qa_history (snd (ask env current_user form w)) = qa_history w ++ [r]) /\
  (forall r,
     qa_history (snd (ask env current_user form w)) = qa_history w ++ [r] ->
     q_question r = sanitize_input (qf_question form) /\
     harmless (q_question r) /\
     q_answer r <> [] /\
     q_user_id r = id current_user /\
     q_username r = username current_user /\
     fst (ask env current_user form w)
       = inr (render_template "response.html"
                (ctx_answer (q_question r) (q_answer r)))).
Proof.
  destruct (ask_saves env current_user form w)
    as [Hsame | [answer [t [Hanswer [Hsaved Hpage]]]]].
  - split; [left; exact Hsame|].
    intros r Hr. rewrite Hsame in Hr.
    destruct (@app_one_more QARecord (qa_history w) r Hr).
  - split; [right; eexists; exact Hsaved|].
    intros r Hr. rewrite Hsaved in Hr.
    apply app_inv_head in Hr. injection Hr as <-.
    cbn [q_question q_answer q_user_id q_username].
    split; [reflexivity|]. split; [apply sanitize_input_harmless|].
    split; [exact Hanswer|]. split; [reflexivity|]. split; [reflexivity|].
    exact Hpage.
Qed.

Lemma ask_saves_sanitized_witness :
  qa_history (snd (ask Sample.env Sample.alice Sample.markup_form Sample.quiet))
    = [Sample.saved] /\
  q_question Sample.saved = sanitize_input (qf_question Sample.markup_form) /\
  harmless (q_question Sample.saved) /\
  q_answer Sample.saved <> [].
Proof.
  pose proof (proj2 (ask_saves_sanitized Sample.env Sample.alice
                       Sample.markup_form Sample.quiet)
                    Sample.saved eq_refl) as [H1 [H2 [H3 _]]].
  split; [reflexivity|]. split; [exact H1|]. split; [exact H2 | exact H3].
Defined.

(* ===================================================================== *)
(** ** More about the helpers *)
(* ===================================================================== *)

Lemma existsb_witness (cls : char -> bool) (s : str) :
  re_search cls s = true -> exists c, In c s /\ cls c = true.
Proof. unfold re_search. intros H. apply existsb_exists in H. exact H. Qed.

(** X1.  [validate_password] accepts a password exactly when it has at
    least eight characters, one of them an ASCII letter and one an ASCII
    digit; in that case, and in no other, the message is "Password is
    valid". *)
Theorem validate_password_accepts_iff (password : str) :
  (fst (validate_password password) = true <->
   8 <= len password /\
   (exists c, In c password /\ is_ascii_letter c = true) /\
   (exists c, In c password /\ is_ascii_digit c = true)) /\
  (fst (validate_password password) = true <->
   snd (validate_password password) = MSG_VALID).
Proof.
  unfold validate_password.
  destruct (len password <? 8) eqn:Hlen.
  - apply Z.ltb_lt in Hlen. split; split; cbn [fst snd]; try discriminate.
    intros [H _]. lia.
  - apply Z.ltb_ge in Hlen.
    destruct (re_search is_ascii_letter password) eqn:Hletter; cbn [negb].
    + destruct (re_search is_ascii_digit password) eqn:Hdigit; cbn [negb fst snd].
      * split; split; auto. intros _.
        split; [exact Hlen|]. split; apply existsb_witness; assumption.
      * split; split; try discriminate.
        intros [_ [_ H]]. rewrite (re_search_some _ _ H) in Hdigit. discriminate.
    + cbn [fst snd]. split; split; try discriminate.
      intros [_ [H _]]. rewrite (re_search_some _ _ H) in Hletter. discriminate.
Qed.

Lemma strip_length (s : str) : (List.length (strip s) <= List.length s)%nat.
Proof.
  destruct (strip_split s) as [pre [post [Hs _]]].
  rewrite Hs at 2. rewrite !length_app. lia.
Qed.

Lemma harmless_clean (s : str) :
  harmless s -> forall c, In c s -> is_dangerous c = false.
Proof.
  intros [H1 [H2 [H3 H4]]] c Hc. apply is_dangerous_spec.
  repeat split; intros ->; auto.
Qed.

(** X2.  The strings [sanitize_input] returns unchanged are exactly those
    with none of the four characters and no white space at either end; and
    the result is never longer than the input. *)
Theorem sanitize_input_fixed_points (t : str) :
  (sanitize_input (Some t) = t <-> harmless t /\ trimmed t) /\
  len (sanitize_input (Some t)) <= len t.
Proof.
  split.
  - split.
    + intros H. rewrite <- H. split.
      * apply sanitize_input_harmless.
      * apply sanitize_input_trimmed.
    + intros [Hharmless Htrimmed].
      unfold sanitize_input. destruct t as [|c t]; [reflexivity|].
      cbn [falsy].
      rewrite (re_sub_empty_fixed is_dangerous (c :: t) (harmless_clean Hharmless)).
      apply strip_fixed. exact Htrimmed.
  - unfold sanitize_input, len. destruct t as [|c t]; cbn [falsy]; [lia|].
    pose proof (strip_length (re_sub_empty is_dangerous (c :: t))) as H1.
    pose proof (filter_length_le (fun x => negb (is_dangerous x)) (c :: t)) as H2.
    unfold re_sub_empty in *. lia.
Qed.

(** X3.  The model key is configured exactly when one of the two
    environment variables is set to a non-empty string, and
    [GEMINI_API_KEY] wins over [GOOGLE_API_KEY] when both are. *)
Theorem api_key_configured_iff (env : Env) :
  (falsy (GEMINI_API_KEY env) = false <->
   configured (getenv env "GEMINI_API_KEY") \/
   configured (getenv env "GOOGLE_API_KEY")) /\
  (configured (getenv env "GEMINI_API_KEY") ->
   GEMINI_API_KEY env = getenv env "GEMINI_API_KEY").
Proof.
  unfold GEMINI_API_KEY, or_else, configured.
  destruct (getenv env "GEMINI_API_KEY") as [[|c1 r1]|];
    destruct (getenv env "GOOGLE_API_KEY") as [[|c2 r2]|]; cbn [falsy];
    (split; [split|]); try discriminate; try reflexivity; eauto;
    try (intros [[c [r H]] | [c [r H]]]; discriminate);
    try (intros [c [r H]]; discriminate).
Qed.

Lemma api_key_configured_iff_witness :
  GEMINI_API_KEY Sample.env = Some (lit "secret").
Proof.
  apply (proj2 (api_key_configured_iff Sample.env)).
  exists 115%N, (lit "ecret"). reflexivity.
Defined.

Lemma validate_password_accepts_iff_witness :
  fst (validate_password (lit "Passw0rd")) = true /\
  snd (validate_password (lit "Passw0rd")) = MSG_VALID.
Proof.
  assert (H : fst (validate_password (lit "Passw0rd")) = true).
  { apply (proj1 (validate_password_accepts_iff (lit "Passw0rd"))).
    split; [discriminate|]. split.
    - exists 80%N. split; [left; reflexivity | reflexivity].
    - exists 48%N. split; [simpl; tauto | reflexivity]. }
  split; [exact H|].
  apply (proj2 (validate_password_accepts_iff (lit "Passw0rd"))). exact H.
Defined.

Lemma sanitize_input_fixed_points_witness :
  sanitize_input (Some (lit "alice")) = lit "alice".
Proof.
  apply (proj1 (sanitize_input_fixed_points (lit "alice"))).
  split.
  - unfold harmless. repeat split; intros H; simpl in H;
      repeat (destruct H as [H | H]; [discriminate|]); destruct H.
  - split; reflexivity.
Defined.

(* ===================================================================== *)
(** ** More about the rate limiter *)
(* ===================================================================== *)


(** X5.  Records of other users and records older than the window do not
    count.  When [now - window] is a [datetime], the store answers, and
    every stored record is of another user or stamped before the window
    start cut down to the millisecond, the check lets the request through
    for every positive limit, however many such records there are, and
    refuses for a limit of zero or less. *)
Theorem rate_limit_check_ignores_old (env : Env) (user_id : str)
    (limit window start : Z) (w : World) :
  mongo_fault env QaHistory CountDocuments = None ->
  Dates.window_start_of (next_utcnow env w) window = inr start ->
  Forall (out_of_window user_id (Dates.bson_millis start)) (qa_history w) ->
  fst (Dates.rate_limit_check env user_id limit window w) = inr (0 <? limit).
Proof.
  intros Hok Hstart Hout.
  rewrite (@dated_check_answered env user_id limit window w start Hstart Hok).
  cbn [fst].
  rewrite filter_drops_all; [reflexivity|].
  eapply Forall_impl; [|exact Hout]. intros r. apply match_window_false.
Qed.

Lemma rate_limit_check_ignores_old_witness :
  fst (Dates.rate_limit_check Demo.env_late Sample.ALICE_ID 1 3600
         (Sample.world_with Sample.elsewhere)) = inr true.
Proof.
  apply (@rate_limit_check_ignores_old Demo.env_late Sample.ALICE_ID 1 3600
           (Sample.T0 + 500 - 3600 * Sample.SECOND)
           (Sample.world_with Sample.elsewhere) eq_refl eq_refl).
  constructor; [right; reflexivity|].
  constructor; [left; discriminate | constructor].
Defined.

Lemma filter_length_mono (A : Type) (q q' : A -> bool) (l : list A) :
  (forall x, q' x = true -> q x = true) ->
  (List.length (filter q' l) <= List.length (filter q l))%nat.
Proof.
  intros Himp. induction l as [|x l IH]; simpl; [lia|].
  destruct (q' x) eqn:Hq'.
  - rewrite (Himp x Hq'). simpl. lia.
  - destruct (q x); simpl; lia.
Qed.

(** X6.  Among windows that have a start, the check is monotone: when
    [now - window] and [now - window'] are both [datetime]s, a request let
    through under the limit and the window is let through, in the same
    world, under every limit at least as large and every window at most as
    long. *)
Theorem rate_limit_check_monotone (env : Env) (user_id : str)
    (limit limit' window window' start start' : Z) (w : World) :
  limit <= limit' ->
  window' <= window ->
  Dates.window_start_of (next_utcnow env w) window = inr start ->
  Dates.window_start_of (next_utcnow env w) window' = inr start' ->
  fst (Dates.rate_limit_check env user_id limit window w) = inr true ->
  fst (Dates.rate_limit_check env user_id limit' window' w) = inr true.
Proof.
  intros Hlimit Hwindow Hstart Hstart'.
  destruct (mongo_fault env QaHistory CountDocuments) as [e|] eqn:Hfault.
  - intros _.
    apply (@dated_check_raised env user_id limit' window' w start' e Hstart' Hfault).
  - rewrite (@dated_check_answered env user_id limit window w start Hstart Hfault).
    rewrite (@dated_check_answered env user_id limit' window' w start' Hstart' Hfault).
    cbn [fst]. intros H. injection H as H. f_equal.
    apply Z.ltb_lt in H. apply Z.ltb_lt.
    assert (Hle : (List.length
                     (filter (match_window user_id (Dates.bson_millis start'))
                             (qa_history w))
                   <= List.length
                     (filter (match_window user_id (Dates.bson_millis start))
                             (qa_history w)))%nat).
    { apply filter_length_mono. intros r Hr.
      apply match_window_true in Hr. apply match_window_true.
      destruct Hr as [Hu Ht]. split; [exact Hu|].
      apply window_start_of_value in Hstart.
      apply window_start_of_value in Hstart'.
      assert (Hss : start <= start').
      { subst. unfold timedelta_seconds. lia. }
      pose proof (bson_millis_mono Hss). lia. }
    lia.
Qed.

Lemma rate_limit_check_monotone_witness :
  fst (Dates.rate_limit_check Sample.env Sample.ALICE_ID 12 1800 Sample.busy)
    = inr true.
Proof.
  apply (@rate_limit_check_monotone Sample.env Sample.ALICE_ID 11 12 3600 1800
           (Sample.T0 - 3600 * Sample.SECOND) (Sample.T0 - 1800 * Sample.SECOND)
           Sample.busy).
  - discriminate.
  - discriminate.
  - reflexivity.
  - reflexivity.
  - reflexivity.
Defined.

(* ===================================================================== *)
(** ** More about the session loader and login *)
(* ===================================================================== *)

Lemma find_by_unique_id (l : list UserDoc) (d : UserDoc) :
  NoDup (List.map u_id l) -> In d l -> find (match_id (u_id d)) l = Some d.
Proof.
  induction l as [|a l IH]; simpl; intros Hnodup Hin; [destruct Hin|].
  inversion Hnodup as [|x xs Hnotin Hrest]; subst.
  destruct Hin as [-> | Hin].
  - unfold match_id. rewrite str_eqb_refl. reflexivity.
  - unfold match_id at 1. destruct (str_eqb (u_id a) (u_id d)) eqn:Heq.
    + apply str_eqb_eq in Heq. exfalso. apply Hnotin. rewrite Heq.
      apply in_map. exact Hin.
    + apply IH; assumption.
Qed.

(** X7.  When identifiers are unique in [users], the session identifier
    parses and the store answers, [user_loader] returns the user made of
    the identifier and the name of the one document that carries it, and
    changes nothing, the log included. *)
Theorem user_loader_finds (env : Env) (user_id : str) (w : World)
    (d : UserDoc) (name : str) :
  ObjectId env user_id = inr (u_id d) ->
  mongo_fault env Users FindOne = None ->
  NoDup (List.map u_id (users w)) ->
  In d (users w) ->
  u_username d = Some name ->
  user_loader env user_id w = (inr (Some (mkUser (u_id d) name)), w).
Proof.
  intros Hoid Hok Hnodup Hin Hname.
  unfold user_loader, try_except, bind, lift, users_find_one, mongo_call,
    getitem_username, ret.
  rewrite Hoid, Hok. cbn [ret].
  rewrite (find_by_unique_id _ _ Hnodup Hin), Hname. reflexivity.
Qed.

Lemma user_loader_finds_witness :
  user_loader Sample.env Sample.ALICE_ID Sample.quiet
    = (inr (Some Sample.alice), Sample.quiet).
Proof.
  apply (@user_loader_finds Sample.env Sample.ALICE_ID Sample.quiet
           (mkUserDoc Sample.ALICE_ID (Some (lit "alice"))
                      (Some (Sample.toy_hash (lit "Passw0rd"))) (Some true) None)
           (lit "alice")).
  - reflexivity.
  - reflexivity.
  - repeat constructor; simpl; intros H;
      repeat (destruct H as [H | H]; [discriminate|]); destruct H.
  - left. reflexivity.
  - reflexivity.
Defined.

Lemma update_first_credentials (q : UserDoc -> bool) (t : Z) (l : list UserDoc) :
  List.map credentials (update_first q (set_last_login t) l) = List.map credentials l.
Proof.
  induction l as [|d l IH]; simpl; [reflexivity|].
  destruct (q d); simpl; [reflexivity | rewrite IH; reflexivity].
Qed.

Lemma match_login_name (name : str) (d : UserDoc) :
  match_login name d = true -> u_username d = Some name /\ u_is_active d = Some true.
Proof.
  unfold match_login.
  destruct (u_username d) as [n|]; [|discriminate].
  destruct (u_is_active d) as [[|]|]; try discriminate.
  intros H. apply str_eqb_eq in H. subst. auto.
Qed.

(** The first steps of [login] on a valid form whose credentials verify:
    the session is opened and the clock read before the stamp is written. *)
Lemma login_accepted_run (env : Env) (form : LoginForm) (next : option str)
    (w : World) (raw : str) (d : UserDoc) (h : str) :
  lf_validate_on_submit form = true ->
  lf_username form = Some raw ->
  mongo_fault env Users FindOne = None ->
  find (match_login (sanitize_input (Some (lower env raw)))) (users w) = Some d ->
  u_password d = Some h ->
  check_password_hash env h (lf_password form) = inr true ->
  login env form next w =
    match mongo_fault env Users UpdateOne with
    | None =>
        (inr (if falsy next then redirect (url_for "dashboard")
              else redirect (url (or_empty next))),
         set_users (update_first (match_id (u_id d))
                                 (set_last_login (next_utcnow env w)))
                   (set_clock_reads (S (clock_reads w))
                                    (set_session_user (Some (u_id d)) w)))
    | Some e =>
        (inr (render_template "login.html" (ctx_login form)),
         set_flashes (fun l => l ++ [(MSG_LOGIN_ERROR, lit "error")])
           (set_log (fun l => l ++ [(ERROR, lit "Login error: " ++ exn_str e)])
              (set_clock_reads (S (clock_reads w))
                               (set_session_user (Some (u_id d)) w))))
    end.
Proof.
  intros Hvalid Hraw Hok Hfind Hpw Hcheck.
  destruct (find_some _ _ Hfind) as [_ Hmatch].
  apply match_login_name in Hmatch. destruct Hmatch as [Hname _].
  unfold login, data_lower. rewrite Hvalid, Hraw.
  unfold try_except, bind, users_find_one, users_update_one, mongo_call, ret.
  rewrite Hok, Hfind. unfold getitem_password, getitem_username.
  rewrite Hpw, Hname. unfold ret, lift. rewrite Hcheck.
  unfold ret, login_user, utcnow, next_utcnow.
  cbn [clock_reads set_session_user].
  destruct (mongo_fault env Users UpdateOne) as [e|].
  - reflexivity.
  - destruct next as [[|c n]|]; reflexivity.
Qed.

(** X8.  On a valid form whose name finds an active user and whose password
    verifies against the stored hash, with the store answering, [login]
    opens the session of that user, redirects to [next] when the request
    carries a non-empty one and to the dashboard otherwise, flashes and logs
    nothing, and changes in [users] nothing but a [last_login]: identifiers,
    names, hashes and active flags are as before. *)
Theorem login_accepts (env : Env) (form : LoginForm) (next : option str)
    (w : World) (raw : str) (d : UserDoc) (h : str) :
  lf_validate_on_submit form = true ->
  lf_username form = Some raw ->
  mongo_fault env Users FindOne = None ->
  mongo_fault env Users UpdateOne = None ->
  find (match_login (sanitize_input (Some (lower env raw)))) (users w) = Some d ->
  u_password d = Some h ->
  check_password_hash env h (lf_password form) = inr true ->
  fst (login env form next w)
    = inr (if falsy next then redirect (url_for "dashboard")
           else redirect (url (or_empty next))) /\
  session_user (snd (login env form next w)) = Some (u_id d) /\
  flashes (snd (login env form next w)) = flashes w /\
  log (snd (login env form next w)) = log w /\
  List.map credentials (users (snd (login env form next w)))
    = List.map credentials (users w).
Proof.
  intros Hvalid Hraw Hok Hupd Hfind Hpw Hcheck.
  rewrite (@login_accepted_run env form next w raw d h Hvalid Hraw Hok Hfind Hpw Hcheck), Hupd.
  world_fields. rewrite update_first_credentials. repeat split.
Qed.

Lemma login_accepts_witness :
  session_user
    (snd (login Sample.env
                (mkLoginForm true (Some (lit " Alice ")) (Some (lit "Passw0rd")))
                (Some (lit "/profile")) Sample.quiet))
    = Some Sample.ALICE_ID /\
  fst (login Sample.env
             (mkLoginForm true (Some (lit " Alice ")) (Some (lit "Passw0rd")))
             (Some (lit "/profile")) Sample.quiet)
    = inr (redirect (url (lit "/profile"))).
Proof.
  pose proof (@login_accepts Sample.env
                (mkLoginForm true (Some (lit " Alice ")) (Some (lit "Passw0rd")))
                (Some (lit "/profile")) Sample.quiet (lit " Alice ")
                (mkUserDoc Sample.ALICE_ID (Some (lit "alice"))
                           (Some (Sample.toy_hash (lit "Passw0rd"))) (Some true) None)
                (Sample.toy_hash (lit "Passw0rd"))
                eq_refl eq_refl eq_refl eq_refl eq_refl eq_refl eq_refl)
    as [H1 [H2 _]].
  split; [exact H2 | exact H1].
Defined.

(** X9.  When the last-login stamp cannot be written, the session is
    already open: [login] leaves the user logged in, logs the exception,
    flashes the generic error and shows the login page again, with [users]
    untouched. *)
Theorem login_stamp_fails (env : Env) (form : LoginForm) (next : option str)
    (w : World) (raw : str) (d : UserDoc) (h : str) (e : Exn) :
  lf_validate_on_submit form = true ->
  lf_username form = Some raw ->
  mongo_fault env Users FindOne = None ->
  mongo_fault env Users UpdateOne = Some e ->
  find (match_login (sanitize_input (Some (lower env raw)))) (users w) = Some d ->
  u_password d = Some h ->
  check_password_hash env h (lf_password form) = inr true ->
  fst (login env form next w) = inr (render_template "login.html" (ctx_login form)) /\
  session_user (snd (login env form next w)) = Some (u_id d) /\
  flashed w (snd (login env form next w)) = [(MSG_LOGIN_ERROR, lit "error")] /\
  log (snd (login env form next w))
    = log w ++ [(ERROR, lit "Login error: " ++ exn_str e)] /\
  users (snd (login env form next w)) = users w.
Proof.
  intros Hvalid Hraw Hok Hupd Hfind Hpw Hcheck.
  rewrite (@login_accepted_run env form next w raw d h Hvalid Hraw Hok Hfind Hpw Hcheck), Hupd.
  unfold flashed. world_fields. rewrite skipn_length_app. repeat split.
Qed.

Lemma login_stamp_fails_witness :
  session_user (snd (login (Demo.env_down Users UpdateOne) Demo.alice_login
                           None Sample.quiet)) = Some Sample.ALICE_ID /\
  fst (login (Demo.env_down Users UpdateOne) Demo.alice_login None Sample.quiet)
    = inr (render_template "login.html" (ctx_login Demo.alice_login)).
Proof.
  pose proof (@login_stamp_fails (Demo.env_down Users UpdateOne) Demo.alice_login
                None Sample.quiet (lit " Alice ") Demo.alice_doc
                (Sample.toy_hash (lit "Passw0rd")) Sample.UNAVAILABLE
                eq_refl eq_refl eq_refl eq_refl eq_refl eq_refl eq_refl)
    as [H1 [H2 _]].
  split; [exact H2 | exact H1].
Defined.

(** X10.  When the lookup of the user raises, [login] opens no session and
    changes no collection; it logs the exception, flashes "An error
    occurred during login. Please try again." (not the message of refused
    credentials) and shows the login page again. *)
Theorem login_lookup_fails (env : Env) (form : LoginForm) (next : option str)
    (w : World) (raw : str) (e : Exn) :
  lf_validate_on_submit form = true ->
  lf_username form = Some raw ->
  mongo_fault env Users FindOne = Some e ->
  fst (login env form next w) = inr (render_template "login.html" (ctx_login form)) /\
  flashed w (snd (login env form next w)) = [(MSG_LOGIN_ERROR, lit "error")] /\
  log (snd (login env form next w))
    = log w ++ [(ERROR, lit "Login error: " ++ exn_str e)] /\
  session_user (snd (login env form next w)) = session_user w /\
  users (snd (login env form next w)) = users w.
Proof.
  intros Hvalid Hraw Hfault.
  assert (Hrun : login env form next w =
                 (inr (render_template "login.html" (ctx_login form)),
                  set_flashes (fun l => l ++ [(MSG_LOGIN_ERROR, lit "error")])
                    (set_log (fun l => l ++ [(ERROR, lit "Login error: " ++ exn_str e)])
                             w))).
  { unfold login, data_lower. rewrite Hvalid, Hraw.
    unfold try_except, bind, users_find_one, mongo_call, ret.
    rewrite Hfault. reflexivity. }
  rewrite Hrun. unfold flashed. world_fields. rewrite skipn_length_app.
  repeat split.
Qed.

Lemma login_lookup_fails_witness :
  flashed Sample.quiet
    (snd (login (Demo.env_down Users FindOne) Demo.alice_login None Sample.quiet))
    = [(MSG_LOGIN_ERROR, lit "error")].
Proof.
  apply (@login_lookup_fails (Demo.env_down Users FindOne) Demo.alice_login
           None Sample.quiet (lit " Alice ") Sample.UNAVAILABLE
           eq_refl eq_refl eq_refl).
Defined.

(** X11.  [login] returns a page or a redirect, and never raises, whenever
    the form did not validate or carries a username: every failure of the
    store or of the hasher ends in the [except] clause. *)
Theorem login_never_raises (env : Env) (form : LoginForm) (next : option str)
    (w : World) :
  lf_validate_on_submit form = false \/ lf_username form <> None ->
  exists r, fst (login env form next w) = inr r.
Proof.
  intros Hform.
  unfold login, data_lower.
  destruct (lf_validate_on_submit form) eqn:Hvalid.
  2: { eexists. reflexivity. }
  destruct (lf_username form) as [raw|] eqn:Hraw.
  2: { destruct Hform as [H | H]; [discriminate | destruct (H eq_refl)]. }
  unfold try_except, bind, users_find_one, users_update_one, mongo_call,
    getitem_password, getitem_username, login_user, utcnow, lift, logger_error,
    flash, raise, ret.
  destruct (mongo_fault env Users FindOne) as [e|]; [eexists; reflexivity|].
  destruct (find (match_login (sanitize_input (Some (lower env raw)))) (users w))
    as [d|]; [|eexists; reflexivity].
  destruct (u_password d) as [h|]; [|eexists; reflexivity].
  destruct (check_password_hash env h (lf_password form)) as [e|[|]];
    [eexists; reflexivity | | eexists; reflexivity].
  destruct (u_username d) as [n|]; [|eexists; reflexivity].
  destruct (mongo_fault env Users UpdateOne) as [e|]; eexists; reflexivity.
Qed.

Lemma login_never_raises_witness :
  exists r, fst (login (Demo.env_down Users FindOne) Demo.alice_login None
                       Sample.quiet) = inr r.
Proof.
  apply (@login_never_raises (Demo.env_down Users FindOne) Demo.alice_login
           None Sample.quiet).
  right. discriminate.
Defined.

(* ===================================================================== *)
(** ** More about asking a question *)
(* ===================================================================== *)

(** The run of [ask] up to the test of the key, on a valid form let
    through by the check: the clock has been read once, the log may have
    grown, and nothing else has changed. *)
Lemma ask_preamble (env : Env) (current_user : User) (form : QuestionForm)
    (w : World) :
  qf_validate_on_submit form = true ->
  fst (rate_limit_check env (id current_user) 10 3600 w) = inr true ->
  exists w2 lines,
    ask env current_user form w =
      (if falsy (GEMINI_API_KEY env) then
         (logger_error (lit "Gemini request error: Missing API key") ;;
          flash MSG_NOT_CONFIGURED (lit "error") ;;
          ret (render_template "ask.html" (ctx_question form))) w2
       else
         ask_gemini env current_user form (sanitize_input (qf_question form))
                    (asked_prompt env current_user form w) w2) /\
    users w2 = users w /\ user_data w2 = user_data w /\
    qa_history w2 = qa_history w /\ flashes w2 = flashes w /\
    genai_trace w2 = genai_trace w /\ session_user w2 = session_user w /\
    clock_reads w2 = S (clock_reads w) /\ log w2 = log w ++ lines.
Proof.
  intros Hvalid Hallow.
  assert (Hstep1 : exists w1 l1,
             rate_limit_check env (id current_user) 10 3600 w = (inr true, w1) /\
             users w1 = users w /\ user_data w1 = user_data w /\
             qa_history w1 = qa_history w /\ flashes w1 = flashes w /\
             genai_trace w1 = genai_trace w /\ session_user w1 = session_user w /\
             clock_reads w1 = S (clock_reads w) /\ log w1 = log w ++ l1).
  { destruct (rate_limit_check_cases env (id current_user) 10 3600 w)
      as [[b Hb] | [e He]].
    - rewrite Hb in Hallow. cbn [fst] in Hallow. injection Hallow as ->.
      eexists. exists []. split; [exact Hb|]. world_fields.
      rewrite app_nil_r. repeat split.
    - eexists. eexists. split; [exact He|]. world_fields. repeat split. }
  destruct Hstep1 as [w1 [l1 [Hrun1 [Hu1 [Hd1 [Hq1 [Hf1 [Hg1 [Hs1 [Hc1 Hl1]]]]]]]]]].
  assert (Hstep2 : exists w2 l2,
             fetch_user_data env (id current_user) w1
               = (inr (fetched_profile env (id current_user) w1), w2) /\
             users w2 = users w1 /\ user_data w2 = user_data w1 /\
             qa_history w2 = qa_history w1 /\ flashes w2 = flashes w1 /\
             genai_trace w2 = genai_trace w1 /\ session_user w2 = session_user w1 /\
             clock_reads w2 = clock_reads w1 /\ log w2 = log w1 ++ l2).
  { unfold fetch_user_data, fetched_profile, try_except, bind, user_data_find_one,
      mongo_call, logger_error, raise, ret.
    destruct (mongo_fault env UserData FindOne) as [e|].
    - eexists. eexists. split; [reflexivity|]. world_fields. repeat split.
    - exists w1, []. split; [reflexivity|]. rewrite app_nil_r. repeat split. }
  destruct Hstep2 as [w2 [l2 [Hrun2 [Hu2 [Hd2 [Hq2 [Hf2 [Hg2 [Hs2 [Hc2 Hl2]]]]]]]]]].
  exists w2, (l1 ++ l2). split.
  - unfold ask. rewrite Hvalid. unfold bind at 1. rewrite Hrun1.
    cbn [negb]. unfold bind at 1. rewrite Hrun2.
    unfold asked_prompt.
    rewrite (@fetched_profile_same_store env (id current_user) w w1 Hd1).
    destruct (falsy (GEMINI_API_KEY env)); reflexivity.
  - rewrite Hu2, Hd2, Hq2, Hf2, Hg2, Hs2, Hc2, Hl2, Hl1, app_assoc.
    repeat split; assumption.
Qed.



Lemma ask_gemini_never_raises (env : Env) (current_user : User)
    (form : QuestionForm) (question prompt : str) (w : World) :
  exists r, fst (ask_gemini env current_user form question prompt w) = inr r.
Proof.
  unfold ask_gemini, try_except, bind, GenerativeModel, generate_content, lift,
    utcnow, qa_history_insert_one, mongo_call, logger_error, flash, raise, ret.
  destruct (GenerativeModel_fault env (GEMINI_MODEL env)) as [e|];
    [eexists; reflexivity|].
  destruct (generate_content_result env (GEMINI_MODEL env) prompt) as [e|resp];
    [eexists; reflexivity|].
  destruct (getattr_text resp) as [e|t]; [eexists; reflexivity|].
  destruct (strip (or_empty t)) as [|c answer];
    cbn [falsy]; [eexists; reflexivity|].
  destruct (mongo_fault env QaHistory InsertOne) as [e|]; eexists; reflexivity.
Qed.

(** X13.  Over stored profiles of the types the module writes (the
    types of [Profile]: a number for the age, lists of strings for goals
    and stress levels, booleans for the preferences), [ask] always returns
    a page: whatever the form holds and whatever the store, the clock and
    the model answer or raise, no exception leaves the view.  (Lines
    353-367 stand outside every [try]; a stored profile with goals that are
    not strings makes them raise, and is outside this statement.) *)
Theorem ask_returns_page_on_typed_profiles (env : Env) (current_user : User)
    (form : QuestionForm) (w : World) :
  exists r, fst (ask env current_user form w) = inr r.
Proof.
  destruct (qf_validate_on_submit form) eqn:Hvalid.
  2: { unfold ask. rewrite Hvalid. eexists. reflexivity. }
  destruct (rate_limit_check_cases env (id current_user) 10 3600 w)
    as [[[|] Hb] | [e He]].
  - assert (Hallow : fst (rate_limit_check env (id current_user) 10 3600 w) = inr true)
      by (rewrite Hb; reflexivity).
    destruct (@ask_preamble env current_user form w Hvalid Hallow)
      as [w2 [lines [Hrun _]]].
    rewrite Hrun. destruct (falsy (GEMINI_API_KEY env)).
    + eexists. reflexivity.
    + apply ask_gemini_never_raises.
  - assert (Hrefused : fst (rate_limit_check env (id current_user) 10 3600 w)
                       = inr false) by (rewrite Hb; reflexivity).
    rewrite (@ask_refused_run env current_user form w Hvalid Hrefused).
    eexists. reflexivity.
  - assert (Hallow : fst (rate_limit_check env (id current_user) 10 3600 w) = inr true)
      by (rewrite He; reflexivity).
    destruct (@ask_preamble env current_user form w Hvalid Hallow)
      as [w2 [lines [Hrun _]]].
    rewrite Hrun. destruct (falsy (GEMINI_API_KEY env)).
    + eexists. reflexivity.
    + apply ask_gemini_never_raises.
Qed.







(** X17.  A failing profile lookup does not stop a question:
    [fetch_user_data] returns the empty profile and logs the exception with
    its class, the collections stay as they were, and the context built
    from that profile is the fixed placeholder. *)
Theorem fetch_user_data_degrades (env : Env) (user_id : str) (w : World) (e : Exn) :
  mongo_fault env UserData FindOne = Some e ->
  fst (fetch_user_data env user_id w) = inr EMPTY_DICT /\
  user_context EMPTY_DICT = lit "No additional context available." /\
  log (snd (fetch_user_data env user_id w))
    = log w ++ [(ERROR, lit "User data fetch error: " ++ exn_type e
                        ++ lit " - " ++ exn_str e)] /\
  user_data (snd (fetch_user_data env user_id w)) = user_data w /\
  qa_history (snd (fetch_user_data env user_id w)) = qa_history w /\
  flashes (snd (fetch_user_data env user_id w)) = flashes w.
Proof.
  intros Hfault.
  unfold fetch_user_data, try_except, bind, user_data_find_one, mongo_call,
    logger_error, raise, ret.
  rewrite Hfault. world_fields. repeat split.
Qed.

Lemma fetch_user_data_degrades_witness :
  fst (fetch_user_data (Demo.env_down UserData FindOne) Sample.ALICE_ID Sample.quiet)
    = inr EMPTY_DICT.
Proof.
  apply (@fetch_user_data_degrades (Demo.env_down UserData FindOne)
           Sample.ALICE_ID Sample.quiet Sample.UNAVAILABLE eq_refl).
Defined.


(* ===================================================================== *)
(** ** The goals field of the profile *)
(* ===================================================================== *)

Lemma split_on_no_sep (sep : char) (g : str) :
  ~ In sep g -> split_on sep g = [g].
Proof.
  induction g as [|c g IH]; simpl; intros Hnot; [reflexivity|].
  unfold char_eqb. destruct (N.eqb c sep) eqn:Heq.
  - apply N.eqb_eq in Heq. exfalso. apply Hnot. left. exact Heq.
  - rewrite IH; [reflexivity|]. intros H. apply Hnot. right. exact H.
Qed.

Lemma split_on_app_sep (sep : char) (g s : str) :
  ~ In sep g -> split_on sep (g ++ sep :: s) = g :: split_on sep s.
Proof.
  induction g as [|c g IH]; simpl; intros Hnot.
  - unfold char_eqb. rewrite N.eqb_refl. reflexivity.
  - unfold char_eqb. destruct (N.eqb c sep) eqn:Heq.
    + apply N.eqb_eq in Heq. exfalso. apply Hnot. left. exact Heq.
    + rewrite IH; [reflexivity|]. intros H. apply Hnot. right. exact H.
Qed.

Lemma split_on_segments (sep : char) (s : str) :
  forall seg, In seg (split_on sep s) -> ~ In sep seg.
Proof.
  induction s as [|c s IH]; simpl; intros seg Hin.
  - destruct Hin as [<- | []]. intros [].
  - unfold char_eqb in Hin. destruct (N.eqb c sep) eqn:Heq.
    + destruct Hin as [<- | Hin]; [intros [] | apply IH; exact Hin].
    + destruct (split_on sep s) as [|seg0 rest] eqn:Hsplit.
      * destruct Hin as [<- | []]. intros [H | []].
        apply N.eqb_neq in Heq. congruence.
      * destruct Hin as [<- | Hin].
        -- intros [H | H].
           ++ apply N.eqb_neq in Heq. congruence.
           ++ apply (IH seg0); [left; reflexivity | exact H].
        -- apply IH. right. exact Hin.
Qed.

Lemma split_on_join (stored : list str) :
  stored <> [] ->
  Forall (fun g => ~ In NL g) stored ->
  split_on NL (join [NL] stored) = stored.
Proof.
  induction stored as [|g rest IH]; intros Hne Hall; [congruence|].
  inversion Hall as [|x xs Hg Hrest]; subst.
  destruct rest as [|g' rest'].
  - simpl. apply split_on_no_sep. exact Hg.
  - change (join [NL] (g :: g' :: rest'))
      with (g ++ NL :: join [NL] (g' :: rest')).
    rewrite (@split_on_app_sep NL g (join [NL] (g' :: rest')) Hg). f_equal.
    apply IH; [discriminate | exact Hrest].
Qed.

Lemma tidy_goal_kept (g : str) :
  tidy_goal g ->
  match strip g with [] => [] | _ :: _ => [strip g] end = [g].
Proof.
  intros [Hne [Htrim _]]. rewrite (@strip_fixed g Htrim).
  destruct g; [congruence | reflexivity].
Qed.

Lemma goals_list_of_tidy (segments : list str) :
  Forall tidy_goal segments ->
  flat_map (fun g => match strip g with [] => [] | _ :: _ => [strip g] end) segments
    = segments.
Proof.
  induction 1 as [|g rest Hg _ IH]; simpl; [reflexivity|].
  rewrite (@tidy_goal_kept g Hg), IH. reflexivity.
Qed.

Lemma goals_list_tidy (data : option str) (g : str) :
  In g (goals_list data) -> tidy_goal g.
Proof.
  unfold goals_list. intros Hin. apply in_flat_map in Hin.
  destruct Hin as [seg [Hseg Hg]].
  destruct (strip seg) as [|c s] eqn:Hstrip; [destruct Hg|].
  destruct Hg as [<- | []].
  split; [discriminate|]. split.
  - rewrite <- Hstrip. apply strip_trimmed.
  - intros HNL. apply (split_on_segments NL (or_empty data) seg Hseg).
    apply strip_incl. rewrite Hstrip. exact HNL.
Qed.

Lemma goals_text_round_trip (stored : list str) :
  Forall tidy_goal stored -> goals_list (Some (goals_text stored)) = stored.
Proof.
  intros Htidy. unfold goals_list, goals_text. cbn [or_empty].
  destruct stored as [|g rest]; [reflexivity|].
  rewrite split_on_join.
  - apply goals_list_of_tidy. exact Htidy.
  - discriminate.
  - eapply Forall_impl; [|exact Htidy]. intros x [_ [_ H]]. exact H.
Qed.

(** X18.  Every goal [profile] stores is a non-empty line without white
    space at either end; a list of such goals, written into the goals field
    one per line as the page does and submitted again, is read back as the
    same list; so saving the goals field as it was filled changes
    nothing. *)
Theorem goals_round_trip :
  (forall data g, In g (goals_list data) -> tidy_goal g) /\
  (forall stored, Forall tidy_goal stored ->
                  goals_list (Some (goals_text stored)) = stored) /\
  (forall data, goals_list (Some (goals_text (goals_list data))) = goals_list data).
Proof.
  split; [exact goals_list_tidy|]. split; [exact goals_text_round_trip|].
  intros data. apply goals_text_round_trip.
  apply Forall_forall. intros g Hg. apply (goals_list_tidy data). exact Hg.
Qed.

Lemma goals_round_trip_witness :
  goals_list (Some (goals_text [lit "sleep better"; lit "worry less"]))
    = [lit "sleep better"; lit "worry less"] /\
  tidy_goal (lit "sleep better").
Proof.
  split.
  - apply (proj1 (proj2 goals_round_trip)).
    repeat constructor; try discriminate;
      intros H; simpl in H;
      repeat (destruct H as [H | H]; [discriminate|]); destruct H.
  - apply (proj1 goals_round_trip
             (Some ([32; 115; 108; 101; 101; 112; 32; 98; 101; 116; 116; 101; 114;
                     32; 10; 10]%N)) (lit "sleep better")).
    left. reflexivity.
Defined.

(* ===================================================================== *)
(** ** The dashboard *)
(* ===================================================================== *)

Lemma insert_desc_in (r x : QARecord) (l : list QARecord) :
  In x (insert_desc r l) <-> x = r \/ In x l.
Proof.
  induction l as [|y l IH]; simpl.
  - intuition.
  - destruct (q_timestamp y <=? q_timestamp r); simpl.
    + intuition.
    + rewrite IH. intuition.
Qed.

Lemma sort_desc_in (x : QARecord) (l : list QARecord) :
  In x (sort_desc l) <-> In x l.
Proof.
  induction l as [|y l IH]; simpl; [tauto|].
  rewrite insert_desc_in, IH. intuition.
Qed.

Lemma insert_desc_newest_first (r : QARecord) (l : list QARecord) :
  newest_first l -> newest_first (insert_desc r l).
Proof.
  induction l as [|y l IH]; simpl; intros Hsorted.
  - split; [constructor | exact I].
  - destruct Hsorted as [Hall Hrest].
    destruct (q_timestamp y <=? q_timestamp r) eqn:Hle.
    + apply Z.leb_le in Hle. simpl. split; [|split; assumption].
      constructor; [exact Hle|].
      eapply Forall_impl; [|exact Hall]. intros a Ha. simpl in Ha. lia.
    + apply Z.leb_gt in Hle. simpl. split; [|apply IH; exact Hrest].
      apply Forall_forall. intros a Ha. apply insert_desc_in in Ha.
      destruct Ha as [-> | Ha]; [lia|].
      rewrite Forall_forall in Hall. apply Hall. exact Ha.
Qed.

Lemma sort_desc_newest_first (l : list QARecord) : newest_first (sort_desc l).
Proof.
  induction l as [|r l IH]; simpl; [exact I|].
  apply insert_desc_newest_first. exact IH.
Qed.

Lemma newest_first_split (a b : list QARecord) :
  newest_first (a ++ b) ->
  newest_first a /\
  forall x y, In x a -> In y b -> q_timestamp y <= q_timestamp x.
Proof.
  induction a as [|r a IH]; simpl; intros Hsorted.
  - split; [exact I | intros x y []].
  - destruct Hsorted as [Hall Hrest]. destruct (IH Hrest) as [Ha Hab].
    apply Forall_app in Hall. destruct Hall as [Hall_a Hall_b].
    split; [split; assumption|].
    intros x y [<- | Hx] Hy.
    + rewrite Forall_forall in Hall_b. apply Hall_b. exact Hy.
    + apply Hab; assumption.
Qed.

(** X19.  When the store answers, the dashboard shows at most five
    records, all stored records of the current user, newest first;
    every record of the user that is not shown is no newer than each
    record shown, and with fewer than five shown none is left out.  The
    view changes nothing. *)
Theorem dashboard_shows_latest (env : Env) (drv : Driver) (current_user : User)
    (w : World) :
  find_fault drv = None ->
  mongo_fault env UserData FindOne = None ->
  exists shown found,
    dashboard env drv current_user w = (inr (mkDashboard shown found), w) /\
    (List.length shown <= 5)%nat /\
    (forall r, In r shown ->
               In r (qa_history w) /\ q_user_id r = id current_user) /\
    newest_first shown /\
    (forall r, In r (qa_history w) -> q_user_id r = id current_user ->
               In r shown \/
               ((List.length shown = 5)%nat /\
                forall a, In a shown -> q_timestamp r <= q_timestamp a)).
Proof.
  intros Hfind Hok.
  unfold dashboard, try_except, bind, recent_questions, user_data_find_one,
    mongo_call, ret.
  rewrite Hfind, Hok.
  set (mine := filter (fun r => str_eqb (q_user_id r) (id current_user))
                      (qa_history w)).
  set (sorted := sort_desc mine).
  assert (Hmine : forall r, In r sorted <->
                            In r (qa_history w) /\ q_user_id r = id current_user).
  { intros r. unfold sorted. rewrite sort_desc_in. unfold mine.
    rewrite filter_In, str_eqb_eq. tauto. }
  pose proof (sort_desc_newest_first mine) as Hsorted. fold sorted in Hsorted.
  rewrite <- (firstn_skipn 5 sorted) in Hsorted.
  apply newest_first_split in Hsorted. destruct Hsorted as [Hfirst Hcross].
  eexists. eexists. split; [reflexivity|].
  split; [apply firstn_le_length|].
  split; [|split; [exact Hfirst|]].
  - intros r Hr. apply Hmine.
    rewrite <- (firstn_skipn 5 sorted). apply in_or_app. left. exact Hr.
  - intros r Hin Huser.
    assert (Hr : In r sorted) by (apply Hmine; split; assumption).
    rewrite <- (firstn_skipn 5 sorted) in Hr. apply in_app_or in Hr.
    destruct Hr as [Hr | Hr]; [left; exact Hr|].
    right. split.
    + destruct (Nat.le_gt_cases 5 (List.length sorted)) as [Hlong | Hshort].
      * apply firstn_length_le. exact Hlong.
      * rewrite skipn_all2 in Hr by lia. destruct Hr.
    + intros a Ha. apply Hcross; assumption.
Qed.

Lemma dashboard_shows_latest_witness :
  exists shown found,
    dashboard Sample.env Demo.driver Sample.alice Sample.busy
      = (inr (mkDashboard shown found), Sample.busy) /\
    (List.length shown <= 5)%nat /\
    newest_first shown.
Proof.
  destruct (@dashboard_shows_latest Sample.env Demo.driver Sample.alice
              Sample.busy eq_refl eq_refl)
    as [shown [found [Hrun [Hlen [_ [Hsorted _]]]]]].
  exists shown, found. split; [exact Hrun | split; [exact Hlen | exact Hsorted]].
Defined.

(** X20.  When reading the questions or the profile raises, the dashboard
    is still shown, with no questions and no profile: the view logs the
    exception, flashes "Error loading dashboard data." and changes no
    collection. *)
Theorem dashboard_degrades (env : Env) (drv : Driver) (current_user : User)
    (w : World) (e : Exn) :
  find_fault drv = Some e \/
  (find_fault drv = None /\ mongo_fault env UserData FindOne = Some e) ->
  fst (dashboard env drv current_user w) = inr (mkDashboard [] None) /\
  flashed w (snd (dashboard env drv current_user w))
    = [(MSG_DASHBOARD_ERROR, lit "error")] /\
  log (snd (dashboard env drv current_user w))
    = log w ++ [(ERROR, lit "Dashboard error: " ++ exn_str e)] /\
  qa_history (snd (dashboard env drv current_user w)) = qa_history w /\
  user_data (snd (dashboard env drv current_user w)) = user_data w.
Proof.
  intros Hfault.
  assert (Hrun : dashboard env drv current_user w =
                 (inr (mkDashboard [] None),
                  set_flashes (fun l => l ++ [(MSG_DASHBOARD_ERROR, lit "error")])
                    (set_log (fun l => l ++ [(ERROR, lit "Dashboard error: "
                                                     ++ exn_str e)]) w))).
  { unfold dashboard, try_except, bind, recent_questions, user_data_find_one,
      mongo_call, raise, ret.
    destruct Hfault as [Hfind | [Hfind Hdata]].
    - rewrite Hfind. reflexivity.
    - rewrite Hfind, Hdata. reflexivity. }
  rewrite Hrun. unfold flashed. world_fields. rewrite skipn_length_app.
  repeat split.
Qed.

Lemma dashboard_degrades_witness :
  fst (dashboard Sample.env Demo.driver_down Sample.alice Sample.busy)
    = inr (mkDashboard [] None) /\
  fst (dashboard (Demo.env_down UserData FindOne) Demo.driver Sample.alice
                 Sample.busy)
    = inr (mkDashboard [] None).
Proof.
  split.
  - apply (@dashboard_degrades Sample.env Demo.driver_down Sample.alice
             Sample.busy Sample.UNAVAILABLE).
    left. reflexivity.
  - apply (@dashboard_degrades (Demo.env_down UserData FindOne) Demo.driver
             Sample.alice Sample.busy Sample.UNAVAILABLE).
    right. split; reflexivity.
Defined.

(* ===================================================================== *)
(** ** Registration *)
(* ===================================================================== *)

(** X21.  A password the policy refuses stops the registration before the
    store is touched: [register] flashes the message of
    [validate_password], shows the form again, and the world is otherwise
    as it was; not even the lookup of the name is made. *)
Theorem register_weak_password (env : Env) (drv : Driver)
    (form : RegistrationForm) (w : World) (raw password : str) :
  rf_validate_on_submit form = true ->
  rf_username form = Some raw ->
  rf_password form = Some password ->
  fst (validate_password password) = false ->
  register env drv form w =
    (inr (page "register.html" form),
     set_flashes (fun l => l ++ [(snd (validate_password password), lit "error")]) w).
Proof.
  intros Hvalid Hraw Hpw Hweak.
  unfold register, data_lower, data_for_len. rewrite Hvalid, Hraw, Hpw.
  unfold bind at 1. unfold bind at 1. unfold ret at 1. unfold bind at 1.
  unfold ret at 1.
  destruct (validate_password password) as [ok message].
  cbn [fst snd] in *. subst ok. reflexivity.
Qed.

Lemma register_weak_password_witness :
  fst (register Sample.env Demo.driver
         (mkRegistrationForm true (Some (lit "Dave")) (Some (lit "secret7")))
         Sample.quiet)
    = inr (page "register.html"
             (mkRegistrationForm true (Some (lit "Dave")) (Some (lit "secret7")))) /\
  users (snd (register Sample.env Demo.driver
         (mkRegistrationForm true (Some (lit "Dave")) (Some (lit "secret7")))
         Sample.quiet)) = Sample.directory.
Proof.
  rewrite (@register_weak_password Sample.env Demo.driver
             (mkRegistrationForm true (Some (lit "Dave")) (Some (lit "secret7")))
             Sample.quiet (lit "Dave") (lit "secret7")
             eq_refl eq_refl eq_refl eq_refl).
  split; reflexivity.
Defined.

Lemma find_match_username (name : str) (l : list UserDoc) (d : UserDoc) :
  In d l -> u_username d = Some name ->
  exists d', find (match_username name) l = Some d'.
Proof.
  induction l as [|x l IH]; simpl; intros Hin Hname; [destruct Hin|].
  destruct (match_username name x) eqn:Hx; [eexists; reflexivity|].
  destruct Hin as [-> | Hin].
  - unfold match_username in Hx. rewrite Hname, str_eqb_refl in Hx. discriminate.
  - apply IH; assumption.
Qed.

(** X22.  A name already stored, for an active account or not, is
    refused: when the submitted name, lowered and sanitized, is the name of
    a stored user, [register] flashes "Username already exists" and shows
    the form again, and the world is otherwise as it was. *)
Theorem register_taken (env : Env) (drv : Driver)
    (form : RegistrationForm) (w : World) (raw password : str) (d : UserDoc) :
  rf_validate_on_submit form = true ->
  rf_username form = Some raw ->
  rf_password form = Some password ->
  fst (validate_password password) = true ->
  mongo_fault env Users FindOne = None ->
  In d (users w) ->
  u_username d = Some (sanitize_input (Some (lower env raw))) ->
  register env drv form w =
    (inr (page "register.html" form),
     set_flashes (fun l => l ++ [(MSG_USERNAME_TAKEN, lit "error")]) w).
Proof.
  intros Hvalid Hraw Hpw Hstrong Hok Hin Hname.
  destruct (find_match_username _ _ Hin Hname) as [d' Hfind].
  unfold register, data_lower, data_for_len. rewrite Hvalid, Hraw, Hpw.
  unfold bind at 1. unfold bind at 1. unfold ret at 1. unfold bind at 1.
  unfold ret at 1.
  destruct (validate_password password) as [ok message].
  cbn [fst] in Hstrong. subst ok. cbn [negb].
  unfold bind, users_find_one, mongo_call, flash, ret.
  rewrite Hok, Hfind. reflexivity.
Qed.

Lemma register_taken_witness :
  flashed Sample.quiet
    (snd (register Sample.env Demo.driver
            (mkRegistrationForm true (Some (lit " <BOB> ")) (Some (lit "Passw0rd")))
            Sample.quiet))
    = [(MSG_USERNAME_TAKEN, lit "error")].
Proof.
  rewrite (@register_taken Sample.env Demo.driver
             (mkRegistrationForm true (Some (lit " <BOB> ")) (Some (lit "Passw0rd")))
             Sample.quiet (lit " <BOB> ") (lit "Passw0rd")
             (mkUserDoc Sample.BOB_ID (Some (lit "bob"))
                        (Some (Sample.toy_hash (lit "hunter22"))) (Some false) None)
             eq_refl eq_refl eq_refl eq_refl eq_refl
             (or_intror (or_introl eq_refl)) eq_refl).
  reflexivity.
Defined.

(** The run of [register] once the form, the password and the name have
    passed: the three clock reads, the two inserts. *)
Lemma register_try_run (env : Env) (drv : Driver)
    (form : RegistrationForm) (w : World) (raw password hashed : str) :
  rf_validate_on_submit form = true ->
  rf_username form = Some raw ->
  rf_password form = Some password ->
  fst (validate_password password) = true ->
  mongo_fault env Users FindOne = None ->
  find (match_username (sanitize_input (Some (lower env raw)))) (users w) = None ->
  generate_password_hash drv password = inr hashed ->
  mongo_fault env Users InsertOne = None ->
  register env drv form w =
    match mongo_fault env UserData InsertOne with
    | None =>
        (inr (moved (url_for "login")),
         set_flashes (fun l => l ++ [(MSG_REGISTERED, lit "success")])
           (set_user_data
              (fun l => l ++ [mkProfileDoc (new_object_id drv (users w))
                                           DEFAULT_PROFILE])
              (set_clock_reads (S (S (S (clock_reads w))))
                 (set_users
                    (fun l => l ++ [mkUserDoc (new_object_id drv (users w))
                                      (Some (sanitize_input (Some (lower env raw))))
                                      (Some hashed) (Some true) None])
                    w))))
    | Some e =>
        (inr (page "register.html" form),
         set_flashes (fun l => l ++ [(MSG_REGISTER_ERROR, lit "error")])
           (set_log (fun l => l ++ [(ERROR, lit "Registration error: " ++ exn_str e)])
              (set_clock_reads (S (S (S (clock_reads w))))
                 (set_users
                    (fun l => l ++ [mkUserDoc (new_object_id drv (users w))
                                      (Some (sanitize_input (Some (lower env raw))))
                                      (Some hashed) (Some true) None])
                    w))))
    end.
Proof.
  intros Hvalid Hraw Hpw Hstrong Hok Hfree Hhash Hinsert.
  unfold register, data_lower, data_for_len. rewrite Hvalid, Hraw, Hpw.
  unfold bind at 1. unfold bind at 1. unfold ret at 1. unfold bind at 1.
  unfold ret at 1.
  destruct (validate_password password) as [ok message].
  cbn [fst] in Hstrong. subst ok. cbn [negb].
  unfold try_except, bind, users_find_one, users_insert_one, user_data_insert_one,
    mongo_call, utcnow, lift, logger_error, flash, raise, ret.
  rewrite Hok, Hfree, Hhash, Hinsert. world_fields.
  destruct (mongo_fault env UserData InsertOne) as [e|]; reflexivity.
Qed.

(** X23.  A valid form with a password the policy accepts and a name no
    stored user has, with the hasher and the store working: [register]
    appends one active user carrying the lowered and sanitized name and the
    hash of the password, appends the default profile under the identifier
    of that user, flashes the success message and redirects to the login
    page; the stored users before it are unchanged. *)
Theorem register_creates (env : Env) (drv : Driver)
    (form : RegistrationForm) (w : World) (raw password hashed : str) :
  rf_validate_on_submit form = true ->
  rf_username form = Some raw ->
  rf_password form = Some password ->
  fst (validate_password password) = true ->
  mongo_fault env Users FindOne = None ->
  (forall d, In d (users w) ->
             u_username d <> Some (sanitize_input (Some (lower env raw)))) ->
  generate_password_hash drv password = inr hashed ->
  mongo_fault env Users InsertOne = None ->
  mongo_fault env UserData InsertOne = None ->
  fst (register env drv form w) = inr (moved (url_for "login")) /\
  users (snd (register env drv form w))
    = users w ++ [mkUserDoc (new_object_id drv (users w))
                            (Some (sanitize_input (Some (lower env raw))))
                            (Some hashed) (Some true) None] /\
  user_data (snd (register env drv form w))
    = user_data w ++ [mkProfileDoc (new_object_id drv (users w)) DEFAULT_PROFILE] /\
  flashed w (snd (register env drv form w)) = [(MSG_REGISTERED, lit "success")] /\
  user_context DEFAULT_PROFILE = lit "No additional context available.".
Proof.
  intros Hvalid Hraw Hpw Hstrong Hok Hfree Hhash Hins1 Hins2.
  assert (Hfind : find (match_username (sanitize_input (Some (lower env raw))))
                       (users w) = None).
  { apply find_none. intros d Hd. unfold match_username.
    destruct (u_username d) as [n|] eqn:Hn; [|reflexivity].
    apply str_eqb_neq. intros ->. apply (Hfree d Hd). exact Hn. }
  rewrite (@register_try_run env drv form w raw password hashed
             Hvalid Hraw Hpw Hstrong Hok Hfind Hhash Hins1), Hins2.
  unfold flashed. world_fields. rewrite skipn_length_app. repeat split.
Qed.

Lemma register_creates_witness :
  fst (register Sample.env Demo.driver
         (mkRegistrationForm true (Some (lit " Dave<3 ")) (Some (lit "Passw0rd")))
         Sample.quiet) = inr (moved (url_for "login")) /\
  users (snd (register Sample.env Demo.driver
         (mkRegistrationForm true (Some (lit " Dave<3 ")) (Some (lit "Passw0rd")))
         Sample.quiet))
    = Sample.directory
      ++ [mkUserDoc (lit "user-3") (Some (lit "dave3"))
                    (Some (Sample.toy_hash (lit "Passw0rd"))) (Some true) None].
Proof.
  pose proof (@register_creates Sample.env Demo.driver
                (mkRegistrationForm true (Some (lit " Dave<3 ")) (Some (lit "Passw0rd")))
                Sample.quiet (lit " Dave<3 ") (lit "Passw0rd")
                (Sample.toy_hash (lit "Passw0rd"))
                eq_refl eq_refl eq_refl eq_refl eq_refl) as H.
  assert (Hfree : forall d, In d (users Sample.quiet) ->
            u_username d <> Some (sanitize_input
                                    (Some (lower Sample.env (lit " Dave<3 "))))).
  { intros d Hd. simpl in Hd.
    destruct Hd as [<- | [<- | [<- | []]]]; discriminate. }
  destruct (H Hfree eq_refl eq_refl eq_refl) as [H1 [H2 _]].
  split; [exact H1 | exact H2].
Defined.

(** X24.  The two inserts of [register] are not atomic: when the insert
    of the profile raises after the user was stored, the user stays in
    [users] without a profile, the exception is logged, and the visitor is
    told that the registration failed and shown the form again. *)
Theorem register_half_done (env : Env) (drv : Driver)
    (form : RegistrationForm) (w : World) (raw password hashed : str) (e : Exn) :
  rf_validate_on_submit form = true ->
  rf_username form = Some raw ->
  rf_password form = Some password ->
  fst (validate_password password) = true ->
  mongo_fault env Users FindOne = None ->
  (forall d, In d (users w) ->
             u_username d <> Some (sanitize_input (Some (lower env raw)))) ->
  generate_password_hash drv password = inr hashed ->
  mongo_fault env Users InsertOne = None ->
  mongo_fault env UserData InsertOne = Some e ->
  fst (register env drv form w) = inr (page "register.html" form) /\
  users (snd (register env drv form w))
    = users w ++ [mkUserDoc (new_object_id drv (users w))
                            (Some (sanitize_input (Some (lower env raw))))
                            (Some hashed) (Some true) None] /\
  user_data (snd (register env drv form w)) = user_data w /\
  flashed w (snd (register env drv form w)) = [(MSG_REGISTER_ERROR, lit "error")] /\
  log (snd (register env drv form w))
    = log w ++ [(ERROR, lit "Registration error: " ++ exn_str e)].
Proof.
  intros Hvalid Hraw Hpw Hstrong Hok Hfree Hhash Hins1 Hins2.
  assert (Hfind : find (match_username (sanitize_input (Some (lower env raw))))
                       (users w) = None).
  { apply find_none. intros d Hd. unfold match_username.
    destruct (u_username d) as [n|] eqn:Hn; [|reflexivity].
    apply str_eqb_neq. intros ->. apply (Hfree d Hd). exact Hn. }
  rewrite (@register_try_run env drv form w raw password hashed
             Hvalid Hraw Hpw Hstrong Hok Hfind Hhash Hins1), Hins2.
  unfold flashed. world_fields. rewrite skipn_length_app. repeat split.
Qed.

Lemma register_half_done_witness :
  user_data (snd (register (Demo.env_down UserData InsertOne) Demo.driver
         (mkRegistrationForm true (Some (lit "Dave")) (Some (lit "Passw0rd")))
         Sample.quiet)) = [] /\
  List.length (users (snd (register (Demo.env_down UserData InsertOne) Demo.driver
         (mkRegistrationForm true (Some (lit "Dave")) (Some (lit "Passw0rd")))
         Sample.quiet))) = 4%nat.
Proof.
  pose proof (@register_half_done (Demo.env_down UserData InsertOne) Demo.driver
                (mkRegistrationForm true (Some (lit "Dave")) (Some (lit "Passw0rd")))
                Sample.quiet (lit "Dave") (lit "Passw0rd")
                (Sample.toy_hash (lit "Passw0rd")) Sample.UNAVAILABLE
                eq_refl eq_refl eq_refl eq_refl eq_refl) as H.
  assert (Hfree : forall d, In d (users Sample.quiet) ->
            u_username d <> Some (sanitize_input
                                    (Some (lower (Demo.env_down UserData InsertOne)
                                                 (lit "Dave"))))).
  { intros d Hd. simpl in Hd.
    destruct Hd as [<- | [<- | [<- | []]]]; discriminate. }
  destruct (H Hfree eq_refl eq_refl eq_refl) as [_ [H2 [H3 _]]].
  split; [exact H3 | rewrite H2; reflexivity].
Defined.

(** What any run of [register] does to [users]: nothing, or one user
    appended under a name that no stored user had. *)
Lemma register_users (env : Env) (drv : Driver) (form : RegistrationForm)
    (w : World) :
  users (snd (register env drv form w)) = users w \/
  exists name hashed,
    find (match_username name) (users w) = None /\
    users (snd (register env drv form w))
      = users w ++ [mkUserDoc (new_object_id drv (users w)) (Some name)
                              (Some hashed) (Some true) None].
Proof.
  destruct (register env drv form w) as [r w'] eqn:Hrun. cbn [snd].
  unfold register, data_lower, data_for_len in Hrun.
  assert (Hleft : forall (x : Exn + Reply RegistrationForm) (v : World),
             (x, v) = (r, w') -> users v = users w ->
             users w' = users w \/
             exists name hashed,
               find (match_username name) (users w) = None /\
               users w' = users w ++ [mkUserDoc (new_object_id drv (users w))
                                        (Some name) (Some hashed) (Some true) None]).
  { intros x v Heq Hv. injection Heq as _ <-. left. exact Hv. }
  destruct (rf_validate_on_submit form);
    [|exact (Hleft _ _ Hrun eq_refl)].
  destruct (rf_username form) as [raw|];
    [|exact (Hleft _ _ Hrun eq_refl)].
  destruct (rf_password form) as [password|];
    [|exact (Hleft _ _ Hrun eq_refl)].
  unfold bind at 1 in Hrun. unfold bind at 1 in Hrun. unfold ret at 1 in Hrun.
  unfold bind at 1 in Hrun. unfold ret at 1 in Hrun.
  destruct (validate_password password) as [[|] message]; cbn [negb] in Hrun;
    [|exact (Hleft _ _ Hrun eq_refl)].
  unfold try_except, bind, users_find_one, users_insert_one, user_data_insert_one,
    mongo_call, utcnow, lift, logger_error, flash, raise, ret in Hrun.
  destruct (mongo_fault env Users FindOne) as [e|];
    [exact (Hleft _ _ Hrun eq_refl)|].
  destruct (find (match_username (sanitize_input (Some (lower env raw)))) (users w))
    as [d|] eqn:Hfind; [exact (Hleft _ _ Hrun eq_refl)|].
  destruct (generate_password_hash drv password) as [e|hashed];
    [exact (Hleft _ _ Hrun eq_refl)|].
  destruct (mongo_fault env Users InsertOne) as [e|];
    [exact (Hleft _ _ Hrun eq_refl)|].
  right. exists (sanitize_input (Some (lower env raw))), hashed.
  split; [exact Hfind|].
  destruct (mongo_fault env UserData InsertOne) as [e|];
    injection Hrun as _ <-; reflexivity.
Qed.

Lemma usernames_app (l l' : list UserDoc) :
  flat_map (fun d => match u_username d with Some n => [n] | None => [] end) (l ++ l')
  = flat_map (fun d => match u_username d with Some n => [n] | None => [] end) l
    ++ flat_map (fun d => match u_username d with Some n => [n] | None => [] end) l'.
Proof. apply flat_map_app. Qed.

Lemma NoDup_snoc (A : Type) (l : list A) (x : A) :
  NoDup l -> ~ In x l -> NoDup (l ++ [x]).
Proof.
  induction l as [|y l IH]; simpl; intros Hnodup Hnot.
  - constructor; [intros [] | constructor].
  - inversion Hnodup as [|z zs Hy Hl]; subst. constructor.
    + intros Hin. apply in_app_or in Hin. destruct Hin as [Hin | [-> | []]].
      * exact (Hy Hin).
      * apply Hnot. left. reflexivity.
    + apply IH; [exact Hl|]. intros H. apply Hnot. right. exact H.
Qed.

(** X25.  A registration running alone adds at most one user, and only
    under a name that no user stored at its start had: [users] after the
    run is [users] before it, or that with one user appended whose name
    none of them carried.  So a run that no other request interleaves
    leaves pairwise different names pairwise different.  (The lookup and
    the insert are two calls of the store and no index forbids a second
    document of the same name: two requests interleaved between them are
    not covered.) *)
Theorem register_adds_fresh_name (env : Env) (drv : Driver)
    (form : RegistrationForm) (w : World) :
  (users (snd (register env drv form w)) = users w \/
   exists created,
     users (snd (register env drv form w)) = users w ++ [created] /\
     (exists name, u_username created = Some name /\
                   forall d, In d (users w) -> u_username d <> Some name)) /\
  (unique_usernames (users w) ->
   unique_usernames (users (snd (register env drv form w)))).
Proof.
  destruct (register_users env drv form w) as [Hsame | [name [hashed [Hfree Hnew]]]].
  - split; [left; exact Hsame|]. rewrite Hsame. auto.
  - assert (Hfresh : forall d, In d (users w) -> u_username d <> Some name).
    { intros d Hd Hn. pose proof (List.find_none _ _ Hfree d Hd) as Hno.
      unfold match_username in Hno. rewrite Hn, str_eqb_refl in Hno.
      discriminate. }
    split.
    + right. eexists. split; [exact Hnew|].
      exists name. split; [reflexivity | exact Hfresh].
    + intros Hunique. rewrite Hnew.
      unfold unique_usernames in *. rewrite usernames_app.
      cbn [flat_map u_username]. rewrite app_nil_r.
      apply NoDup_snoc; [exact Hunique|].
      intros Hin. apply in_flat_map in Hin. destruct Hin as [d [Hd Hn]].
      destruct (u_username d) as [n|] eqn:Hname; [|destruct Hn].
      destruct Hn as [-> | []]. exact (Hfresh d Hd Hname).
Qed.

Lemma register_adds_fresh_name_witness :
  unique_usernames
    (users (snd (register Sample.env Demo.driver
                   (mkRegistrationForm true (Some (lit "Dave")) (Some (lit "Passw0rd")))
                   Sample.quiet))).
Proof.
  apply (proj2 (@register_adds_fresh_name Sample.env Demo.driver
           (mkRegistrationForm true (Some (lit "Dave")) (Some (lit "Passw0rd")))
           Sample.quiet)).
  unfold unique_usernames. simpl.
  repeat constructor; simpl; intros H;
    repeat (destruct H as [H | H]; [discriminate|]); destruct H.
Defined.

Lemma find_app_none (A : Type) (q : A -> bool) (l l' : list A) :
  (forall d, In d l -> q d = false) -> find q (l ++ l') = find q l'.
Proof.
  induction l as [|x l IH]; simpl; intros H; [reflexivity|].
  rewrite (H x (or_introl eq_refl)). apply IH. intros d Hd. apply H. auto.
Qed.

(** X26.  Registration and login fit together.  After a registration that
    succeeded, and with a hasher that verifies the hash it made for that
    password, a login with the same name and the same password finds the
    new user: it opens the session under the identifier given at
    registration and redirects (to [next] when there is one, else to the
    dashboard). *)
Theorem register_then_login (env : Env) (drv : Driver)
    (form : RegistrationForm) (next : option str) (w : World)
    (raw password hashed : str) :
  rf_validate_on_submit form = true ->
  rf_username form = Some raw ->
  rf_password form = Some password ->
  fst (validate_password password) = true ->
  mongo_fault env Users FindOne = None ->
  (forall d, In d (users w) ->
             u_username d <> Some (sanitize_input (Some (lower env raw)))) ->
  generate_password_hash drv password = inr hashed ->
  mongo_fault env Users InsertOne = None ->
  mongo_fault env UserData InsertOne = None ->
  check_password_hash env hashed (Some password) = inr true ->
  mongo_fault env Users UpdateOne = None ->
  fst (login env (mkLoginForm true (Some raw) (Some password)) next
             (snd (register env drv form w)))
    = inr (if falsy next then redirect (url_for "dashboard")
           else redirect (url (or_empty next))) /\
  session_user
    (snd (login env (mkLoginForm true (Some raw) (Some password)) next
                (snd (register env drv form w))))
    = Some (new_object_id drv (users w)).
Proof.
  intros Hvalid Hraw Hpw Hstrong Hok Hfree Hhash Hins1 Hins2 Hcheck Hupd.
  assert (Hfind0 : find (match_username (sanitize_input (Some (lower env raw))))
                        (users w) = None).
  { apply find_none. intros d Hd. unfold match_username.
    destruct (u_username d) as [n|] eqn:Hn; [|reflexivity].
    apply str_eqb_neq. intros ->. apply (Hfree d Hd). exact Hn. }
  rewrite (@register_try_run env drv form w raw password hashed
             Hvalid Hraw Hpw Hstrong Hok Hfind0 Hhash Hins1), Hins2.
  cbn [snd].
  set (created := mkUserDoc (new_object_id drv (users w))
                            (Some (sanitize_input (Some (lower env raw))))
                            (Some hashed) (Some true) None).
  set (w' := set_flashes _ _).
  assert (Hfind : find (match_login (sanitize_input (Some (lower env raw))))
                       (users w') = Some created).
  { unfold w'.
    cbn [users set_flashes set_user_data set_clock_reads set_users].
    rewrite find_app_none.
    - simpl. unfold match_login. cbn [created u_username u_is_active].
      rewrite str_eqb_refl. reflexivity.
    - intros d Hd. apply match_login_other_name. apply Hfree. exact Hd. }
  rewrite (@login_accepted_run env (mkLoginForm true (Some raw) (Some password))
             next w' raw created hashed
             eq_refl eq_refl Hok Hfind eq_refl Hcheck), Hupd.
  world_fields. split; reflexivity.
Qed.

Lemma register_then_login_witness :
  session_user
    (snd (login Sample.env (mkLoginForm true (Some (lit "Dave")) (Some (lit "Passw0rd")))
                None
                (snd (register Sample.env Demo.driver
                        (mkRegistrationForm true (Some (lit "Dave"))
                                            (Some (lit "Passw0rd")))
                        Sample.quiet))))
    = Some (lit "user-3").
Proof.
  pose proof (@register_then_login Sample.env Demo.driver
                (mkRegistrationForm true (Some (lit "Dave")) (Some (lit "Passw0rd")))
                None Sample.quiet (lit "Dave") (lit "Passw0rd")
                (Sample.toy_hash (lit "Passw0rd"))
                eq_refl eq_refl eq_refl eq_refl eq_refl) as H.
  assert (Hfree : forall d, In d (users Sample.quiet) ->
            u_username d <> Some (sanitize_input
                                    (Some (lower Sample.env (lit "Dave"))))).
  { intros d Hd. simpl in Hd.
    destruct Hd as [<- | [<- | [<- | []]]]; discriminate. }
  destruct (H Hfree eq_refl eq_refl eq_refl eq_refl eq_refl) as [_ H2].
  exact H2.
Defined.

(* ===================================================================== *)
(** ** The profile *)
(* ===================================================================== *)

Lemma update_first_profile_found (user_id : str) (p : Profile) (l : list ProfileDoc) :
  (exists d, In d l /\ p_user_id d = user_id) ->
  exists d', find (fun x => str_eqb (p_user_id x) user_id)
                  (update_first_profile user_id p l) = Some d' /\
             p_profile d' = p.
Proof.
  induction l as [|x l IH]; intros [d [Hin Hid]]; [destruct Hin|].
  simpl. destruct (str_eqb (p_user_id x) user_id) eqn:Hx.
  - simpl. rewrite Hx. eexists. split; reflexivity.
  - simpl. rewrite Hx. apply IH. destruct Hin as [-> | Hin].
    + rewrite <- Hid, str_eqb_refl in Hx. discriminate.
    + exists d. split; assumption.
Qed.

Lemma update_first_profile_other (user_id other : str) (p : Profile)
    (l : list ProfileDoc) :
  other <> user_id ->
  find (fun x => str_eqb (p_user_id x) other) (update_first_profile user_id p l)
    = find (fun x => str_eqb (p_user_id x) other) l.
Proof.
  intros Hne. induction l as [|x l IH]; simpl; [reflexivity|].
  destruct (str_eqb (p_user_id x) user_id) eqn:Hx.
  - apply str_eqb_eq in Hx. simpl.
    assert (Hno : str_eqb (p_user_id x) other = false).
    { apply str_eqb_neq. congruence. }
    rewrite Hno. reflexivity.
  - simpl. destruct (str_eqb (p_user_id x) other); [reflexivity | exact IH].
Qed.

Lemma update_first_profile_absent (user_id : str) (p : Profile) (l : list ProfileDoc) :
  (forall d, In d l -> p_user_id d <> user_id) ->
  update_first_profile user_id p l = l.
Proof.
  induction l as [|x l IH]; simpl; intros H; [reflexivity|].
  assert (Hx : str_eqb (p_user_id x) user_id = false).
  { apply str_eqb_neq. apply H. left. reflexivity. }
  rewrite Hx. f_equal. apply IH. intros d Hd. apply H. right. exact Hd.
Qed.

Lemma update_first_profile_length (user_id : str) (p : Profile) (l : list ProfileDoc) :
  List.length (update_first_profile user_id p l) = List.length l.
Proof.
  induction l as [|x l IH]; simpl; [reflexivity|].
  destruct (str_eqb (p_user_id x) user_id); simpl; [reflexivity | rewrite IH; reflexivity].
Qed.

(** The run of [profile] on a valid form when the store answers. *)
Lemma profile_update_run (env : Env) (current_user : User) (form : ProfileForm)
    (w : World) :
  pf_validate_on_submit form = true ->
  mongo_fault env UserData FindOne = None ->
  mongo_fault env UserData UpdateOne = None ->
  profile env current_user form w =
    (inr (moved (url_for "profile")),
     set_flashes (fun l => l ++ [(MSG_PROFILE_UPDATED, lit "success")])
       (set_user_data (update_first_profile (id current_user) (update_data form))
          (set_clock_reads (S (clock_reads w)) w))).
Proof.
  intros Hvalid Hfind Hupd.
  unfold profile, try_except, bind, user_data_find_one, user_data_update_one,
    mongo_call, utcnow, flash, ret.
  rewrite Hvalid, Hfind, Hupd. reflexivity.
Qed.

(** X27.  What a profile update stores is what a question then reads.
    After a valid form is saved for a user who has a profile, with the
    store answering, the profile fetched for that user is the submitted
    one (age, goals split into tidy lines, stress levels, preferences);
    the profile fetched for any other user is as before, and the number of
    documents is unchanged.  The view flashes the success message and
    redirects to the profile page. *)
Theorem profile_update_round_trip (env : Env) (current_user : User)
    (form : ProfileForm) (w : World) :
  pf_validate_on_submit form = true ->
  mongo_fault env UserData FindOne = None ->
  mongo_fault env UserData UpdateOne = None ->
  has_profile (id current_user) w ->
  fst (profile env current_user form w) = inr (moved (url_for "profile")) /\
  flashed w (snd (profile env current_user form w))
    = [(MSG_PROFILE_UPDATED, lit "success")] /\
  fetched_profile env (id current_user) (snd (profile env current_user form w))
    = update_data form /\
  (forall other, other <> id current_user ->
     fetched_profile env other (snd (profile env current_user form w))
       = fetched_profile env other w) /\
  List.length (user_data (snd (profile env current_user form w)))
    = List.length (user_data w).
Proof.
  intros Hvalid Hfind Hupd Hhas.
  rewrite (@profile_update_run env current_user form w Hvalid Hfind Hupd).
  unfold flashed, fetched_profile. rewrite Hfind.
  cbn [fst snd flashes user_data set_flashes set_user_data set_clock_reads].
  rewrite skipn_length_app, update_first_profile_length.
  split; [reflexivity|]. split; [reflexivity|]. split; [|split; [|reflexivity]].
  - destruct (@update_first_profile_found (id current_user) (update_data form)
                (user_data w) Hhas) as [d' [Hd' Hp]].
    rewrite Hd'. exact Hp.
  - intros other Hne.
    rewrite (@update_first_profile_other (id current_user) other
               (update_data form) (user_data w) Hne).
    reflexivity.
Qed.

Lemma profile_update_round_trip_witness :
  fetched_profile Sample.env Sample.ALICE_ID
    (snd (profile Sample.env Sample.alice Demo.new_goals Demo.settled))
    = mkProfile (Some 31) (Some [lit "worry less"; lit "walk daily"])
                (Some [lit "medium"])
                (Some (mkPreferences (Some false) (Some true))) /\
  fetched_profile Sample.env Sample.BOB_ID
    (snd (profile Sample.env Sample.alice Demo.new_goals Demo.settled))
    = DEFAULT_PROFILE.
Proof.
  assert (Hhas : has_profile (id Sample.alice) Demo.settled).
  { exists Demo.alice_profile. split; [right; left; reflexivity | reflexivity]. }
  destruct (@profile_update_round_trip Sample.env Sample.alice Demo.new_goals
              Demo.settled eq_refl eq_refl eq_refl Hhas)
    as [_ [_ [H3 [H4 _]]]].
  split.
  - exact H3.
  - apply (H4 Sample.BOB_ID). discriminate.
Defined.

(** X28.  For a user without a document in [user_data] the update
    matches nothing: a valid form leaves the collection exactly as it was,
    and the view still flashes "Profile updated successfully!" and
    redirects. *)
Theorem profile_without_document (env : Env) (current_user : User)
    (form : ProfileForm) (w : World) :
  pf_validate_on_submit form = true ->
  mongo_fault env UserData FindOne = None ->
  mongo_fault env UserData UpdateOne = None ->
  (forall d, In d (user_data w) -> p_user_id d <> id current_user) ->
  fst (profile env current_user form w) = inr (moved (url_for "profile")) /\
  flashed w (snd (profile env current_user form w))
    = [(MSG_PROFILE_UPDATED, lit "success")] /\
  user_data (snd (profile env current_user form w)) = user_data w.
Proof.
  intros Hvalid Hfind Hupd Hnone.
  rewrite (@profile_update_run env current_user form w Hvalid Hfind Hupd).
  unfold flashed.
  cbn [fst snd flashes user_data set_flashes set_user_data set_clock_reads].
  rewrite skipn_length_app.
  rewrite (@update_first_profile_absent (id current_user) (update_data form)
             (user_data w) Hnone).
  repeat split.
Qed.

Lemma profile_without_document_witness :
  user_data (snd (profile Sample.env Sample.alice Demo.new_goals Sample.quiet)) = [] /\
  fst (profile Sample.env Sample.alice Demo.new_goals Sample.quiet)
    = inr (moved (url_for "profile")).
Proof.
  destruct (@profile_without_document Sample.env Sample.alice Demo.new_goals
              Sample.quiet eq_refl eq_refl eq_refl (fun d (H : In d []) => match H with end))
    as [H1 [_ H3]].
  split; [exact H3 | exact H1].
Defined.

Lemma update_data_written (form : ProfileForm) : written_profile (update_data form).
Proof.
  unfold written_profile, update_data. cbn [goals stress_level preferences].
  split; [|split].
  - eexists. split; [reflexivity|].
    apply Forall_forall. intros g Hg.
    apply (goals_list_tidy (pf_mental_health_goals form)). exact Hg.
  - eexists. reflexivity.
  - eexists. eexists. reflexivity.
Qed.

(** X29.  Showing the profile and saving it unchanged is the identity.
    When the form did not validate (a plain visit of the page included)
    and the store holds a document for the user, the view changes nothing
    and shows the form filled from that document; and for a stored profile
    as [register] and [profile] write them, the profile made from the form
    so filled is the stored profile again.  The profiles written by
    [profile], and the default written by [register], are of that kind. *)
Theorem profile_page_round_trip (env : Env) (current_user : User)
    (form : ProfileForm) (w : World) (d : ProfileDoc) :
  pf_validate_on_submit form = false ->
  mongo_fault env UserData FindOne = None ->
  find (fun x => str_eqb (p_user_id x) (id current_user)) (user_data w) = Some d ->
  written_profile (p_profile d) ->
  profile env current_user form w = (inr (page "profile.html" (prefill form d)), w) /\
  update_data (prefill form d) = p_profile d /\
  (forall submitted, written_profile (update_data submitted)) /\
  written_profile DEFAULT_PROFILE.
Proof.
  intros Hget Hok Hfind [[gs [Hgoals Htidy]] [[ss Hstress] [t [m Hprefs]]]].
  split; [|split; [|split]].
  - unfold profile, bind, user_data_find_one, mongo_call, ret.
    rewrite Hok, Hfind, Hget. reflexivity.
  - unfold update_data, prefill.
    cbn [pf_age pf_mental_health_goals pf_stress_level pf_therapy_preference
         pf_meditation_preference].
    rewrite Hgoals, Hstress, Hprefs.
    cbn [get_or_empty therapy meditation truthy_bool].
    rewrite (goals_text_round_trip Htidy).
    destruct (p_profile d) as [a g s p]. cbn in *. congruence.
  - exact update_data_written.
  - unfold written_profile, DEFAULT_PROFILE. cbn [goals stress_level preferences].
    split; [|split].
    + exists []. split; [reflexivity | constructor].
    + eexists. reflexivity.
    + eexists. eexists. reflexivity.
Qed.

Lemma profile_page_round_trip_witness :
  update_data
    (prefill (mkProfileForm false None None None false false) Demo.alice_profile)
    = p_profile Demo.alice_profile.
Proof.
  apply (@profile_page_round_trip Sample.env Sample.alice
           (mkProfileForm false None None None false false) Demo.settled
           Demo.alice_profile eq_refl eq_refl eq_refl).
  split; [|split].
  - exists [lit "sleep better"]. split; [reflexivity|].
    repeat constructor; try discriminate.
    intros H; simpl in H;
      repeat (destruct H as [H | H]; [discriminate|]); destruct H.
  - eexists. reflexivity.
  - eexists. eexists. reflexivity.
Defined.

(** X30.  When the update raises, nothing is stored: [profile] logs the
    exception, flashes "Error updating profile. Please try again." and
    shows the page again, filled from the stored document and not from
    what was submitted. *)
Theorem profile_update_fails (env : Env) (current_user : User)
    (form : ProfileForm) (w : World) (d : ProfileDoc) (e : Exn) :
  pf_validate_on_submit form = true ->
  mongo_fault env UserData FindOne = None ->
  mongo_fault env UserData UpdateOne = Some e ->
  find (fun x => str_eqb (p_user_id x) (id current_user)) (user_data w) = Some d ->
  fst (profile env current_user form w)
    = inr (page "profile.html" (prefill form d)) /\
  user_data (snd (profile env current_user form w)) = user_data w /\
  flashed w (snd (profile env current_user form w))
    = [(MSG_PROFILE_ERROR, lit "error")] /\
  log (snd (profile env current_user form w))
    = log w ++ [(ERROR, lit "Profile update error: " ++ exn_str e)].
Proof.
  intros Hvalid Hok Hupd Hfind.
  assert (Hrun : profile env current_user form w =
                 (inr (page "profile.html" (prefill form d)),
                  set_flashes (fun l => l ++ [(MSG_PROFILE_ERROR, lit "error")])
                    (set_log (fun l => l ++ [(ERROR, lit "Profile update error: "
                                                     ++ exn_str e)])
                       (set_clock_reads (S (clock_reads w)) w)))).
  { unfold profile, try_except, bind, user_data_find_one, user_data_update_one,
      mongo_call, utcnow, logger_error, flash, raise, ret.
    rewrite Hvalid, Hok, Hupd, Hfind. reflexivity. }
  rewrite Hrun. unfold flashed. world_fields. rewrite skipn_length_app.
  repeat split.
Qed.

Lemma profile_update_fails_witness :
  fst (profile (Demo.env_down UserData UpdateOne) Sample.alice Demo.new_goals
               Demo.settled)
    = inr (page "profile.html" (prefill Demo.new_goals Demo.alice_profile)) /\
  user_data (snd (profile (Demo.env_down UserData UpdateOne) Sample.alice
                          Demo.new_goals Demo.settled))
    = [Demo.bob_profile; Demo.alice_profile].
Proof.
  destruct (@profile_update_fails (Demo.env_down UserData UpdateOne) Sample.alice
              Demo.new_goals Demo.settled Demo.alice_profile Sample.UNAVAILABLE
              eq_refl eq_refl eq_refl eq_refl) as [H1 [H2 _]].
  split; [exact H1 | exact H2].
Defined.
